(** * Lazy sequence views ([views.py]): a shallow embedding

    The module [views.py] provides two read-only views over sequence-like
    Python objects: [Seq], a windowed and strided view of one object, and
    [SeqChain], the concatenation of several.  The views keep references to
    the objects they are built from and never copy them, so what an access
    returns depends on the state of those objects at the time of the access.

    The embedding keeps that: externally owned objects live in a [heap] and a
    view refers to them by address; the views themselves are immutable and are
    embedded by value.  Python exceptions are the [Raise] outcomes of a small
    error monad. *)

From Stdlib Require Import ZArith List String Ascii Bool Lia DecimalString.
Import ListNotations.
Local Open Scope string_scope.
Local Open Scope Z_scope.
Set Warnings "-register-all".

(** ** Outcomes of Python code *)

Inductive exn : Type :=
| TypeError (msg : string)
| IndexError (msg : string)
| ValueError (msg : string)
| NameError (msg : string)
| UnboundLocalError (msg : string)
| LengthChangedError (msg : string).   (* class LengthChangedError(RuntimeError) *)

Inductive result (A : Type) : Type :=
| Return (a : A)
| Raise (e : exn).
Arguments Return {A} a.
Arguments Raise {A} e.

Definition bind {A B : Type} (m : result A) (k : A -> result B) : result B :=
  match m with
  | Return a => k a
  | Raise e => Raise e
  end.

Notation "x <- m ;; k" := (bind m (fun x => k))
  (at level 61, m at next level, right associativity).
Notation "' pat <- m ;; k" := (bind m (fun x => match x with pat => k end))
  (at level 61, pat pattern, m at next level, right associativity).

(** ** Python values and the heap *)

(** Elements stored in the collections. *)
Inductive value : Type :=
| VInt (z : Z)
| VStr (s : string)
| VNone.

(** Externally owned objects.  Lists and strings have both [__getitem__] and
    [__len__]; a set has [__len__] only; an int and [None] have neither. *)
Inductive pyobj : Type :=
| PyList (items : list value)
| PyStr (s : string)
| PySet (items : list value)
| PyInt (z : Z)
| PyNone.

Definition heap : Type := nat -> pyobj.

(** The normalized slice a [Seq] keeps in [self._slice]: three ints. *)
Module slice.
Record t : Type := mk { start : Z; stop : Z; step : Z }.
End slice.

(** An object as the views see it: a reference to an externally owned object,
    or a view.  The arguments of [SeqObj] and [ChainObj] are the attributes
    the constructors set. *)
Inductive obj : Type :=
| Ref (r : nat)
| SeqObj (_seq : obj) (_len_orig : Z) (_slice : slice.t) (_len : Z)
| ChainObj (_parts : list obj) (_len : Z).

(** What a subscript expression [o[sub]] is given. *)
Inductive subscript : Type :=
| SubInt (i : Z)                          (* an int, or an object whose __index__() is i *)
| SubSlice (start stop step : option Z)   (* slice(start, stop, step); None is an omitted bound *)
| SubTuple                                (* a tuple: a multi-index *)
| SubOther.                               (* any other object without __index__ *)

(** What a subscript expression returns. *)
Inductive pyres : Type :=
| RElem (v : value)      (* an element *)
| RView (o : obj)        (* a view *)
| RNew (o : pyobj).      (* a fresh list or str, from slicing a list or str *)

(** ** Builtins *)

(** [type(o).__name__] *)
Definition type_name (h : heap) (o : obj) : string :=
  match o with
  | Ref r =>
      match h r with
      | PyList _ => "list"
      | PyStr _ => "str"
      | PySet _ => "set"
      | PyInt _ => "int"
      | PyNone => "NoneType"
      end
  | SeqObj _ _ _ _ => "Seq"
  | ChainObj _ _ => "SeqChain"
  end.

(** [hasattr(type(o), name)] for the two attribute names the module asks for. *)
Definition hasattr___getitem__ (h : heap) (o : obj) : bool :=
  match o with
  | Ref r => match h r with PyList _ | PyStr _ => true | _ => false end
  | _ => true
  end.

Definition hasattr___len__ (h : heap) (o : obj) : bool :=
  match o with
  | Ref r => match h r with PyList _ | PyStr _ | PySet _ => true | _ => false end
  | _ => true
  end.

(** [len(o)]: both views answer with the length recorded at construction. *)
Definition len (h : heap) (o : obj) : result Z :=
  match o with
  | Ref r =>
      match h r with
      | PyList l => Return (Z.of_nat (List.length l))
      | PyStr s => Return (Z.of_nat (String.length s))
      | PySet l => Return (Z.of_nat (List.length l))
      | PyInt _ => Raise (TypeError "object of type 'int' has no len()")
      | PyNone => Raise (TypeError "object of type 'NoneType' has no len()")
      end
  | SeqObj _ _ _ n => Return n
  | ChainObj _ n => Return n
  end.

(** [slice(start, stop, step).indices(length)].  Wherever the module calls
    it, [length] is a result of [len]. *)
Definition slice_indices (start stop step : option Z) (length : Z)
  : result (Z * Z * Z) :=
  let step := match step with None => 1 | Some s => s end in
  if step =? 0 then Raise (ValueError "slice step cannot be zero")
  else
    let lower := if step <? 0 then -1 else 0 in
    let upper := if step <? 0 then length - 1 else length in
    let start :=
      match start with
      | None => if step <? 0 then upper else lower
      | Some s => if s <? 0 then Z.max (s + length) lower else Z.min s upper
      end in
    let stop :=
      match stop with
      | None => if step <? 0 then lower else upper
      | Some s => if s <? 0 then Z.max (s + length) lower else Z.min s upper
      end in
    Return (start, stop, step).

(** [len(range(start, stop, step))] for a non-zero step. *)
Definition range_len (start stop step : Z) : Z :=
  if 0 <? step then
    if start <? stop then (stop - start - 1) / step + 1 else 0
  else
    if stop <? start then (start - stop - 1) / (- step) + 1 else 0.

(** The integers [range(start, start + n*step, step)] runs through. *)
Definition range_items (start step n : Z) : list Z :=
  map (fun k => start + Z.of_nat k * step) (seq 0 (Z.to_nat n)).

(** [range(n)[slice(a, b, c)]], as the (start, stop, step) of the new range. *)
Definition range_getitem_slice (n : Z) (s : slice.t) : result (Z * Z * Z) :=
  '(a, b, c) <- slice_indices (Some (slice.start s)) (Some (slice.stop s))
                              (Some (slice.step s)) n ;;
  Return (0 + a * 1, 0 + b * 1, 1 * c).

(** [l[i]] for a list. *)
Definition list_getitem (l : list value) (i : Z) : result value :=
  let n := Z.of_nat (List.length l) in
  let i := if i <? 0 then i + n else i in
  if (i <? 0) || (n <=? i) then Raise (IndexError "list index out of range")
  else
    match nth_error l (Z.to_nat i) with
    | Some v => Return v
    | None => Raise (IndexError "list index out of range")
    end.

(** [s[i]] for a str: the one-character string at [i]. *)
Definition str_getitem (s : string) (i : Z) : result value :=
  let n := Z.of_nat (String.length s) in
  let i := if i <? 0 then i + n else i in
  if (i <? 0) || (n <=? i) then Raise (IndexError "string index out of range")
  else
    match String.get (Z.to_nat i) s with
    | Some c => Return (VStr (String c EmptyString))
    | None => Raise (IndexError "string index out of range")
    end.

(** [o[sub]] for an externally owned object. *)
Definition builtin_getitem (o : pyobj) (sub : subscript) : result pyres :=
  match o with
  | PyList l =>
      match sub with
      | SubInt i => v <- list_getitem l i ;; Return (RElem v)
      | SubSlice a b c =>
          '(a, b, c) <- slice_indices a b c (Z.of_nat (List.length l)) ;;
          Return (RNew (PyList
            (map (fun i => nth (Z.to_nat i) l VNone)
                 (range_items a c (range_len a b c)))))
      | _ => Raise (TypeError "list indices must be integers or slices")
      end
  | PyStr s =>
      match sub with
      | SubInt i => v <- str_getitem s i ;; Return (RElem v)
      | SubSlice a b c =>
          '(a, b, c) <- slice_indices a b c (Z.of_nat (String.length s)) ;;
          Return (RNew (PyStr
            (string_of_list_ascii
               (map (fun i => nth (Z.to_nat i) (list_ascii_of_string s) zero)
                    (range_items a c (range_len a b c))))))
      | _ => Raise (TypeError "string indices must be integers")
      end
  | PySet _ => Raise (TypeError "'set' object is not subscriptable")
  | PyInt _ => Raise (TypeError "'int' object is not subscriptable")
  | PyNone => Raise (TypeError "'NoneType' object is not subscriptable")
  end.

(** ** The module *)

(** [issequence(obj)] *)
Definition issequence (h : heap) (o : obj) : bool :=
  hasattr___getitem__ h o && hasattr___len__ h o.

(** A callable taking what [Seq.__getitem__] hands to the name [SeqView]. *)
Definition view_ctor : Type := heap -> obj -> Z -> Z -> Z -> result obj.

(** Calling a module-global name: an unbound name raises [NameError]. *)
Definition call_global (name : string) (binding : option view_ctor)
    (h : heap) (seq : obj) (start stop step : Z) : result obj :=
  match binding with
  | Some f => f h seq start stop step
  | None => Raise (NameError ("name '" ++ name ++ "' is not defined"))
  end.

Module Seq.

(** [Seq.__init__(self, seq, start=None, stop=None, step=None)] *)
Definition __init__ (h : heap) (seq : obj) (start stop step : option Z)
  : result obj :=
  if negb (issequence h seq) then
    Raise (TypeError ("'" ++ type_name h seq ++ "' object is not a sequence"))
  else
    _len_orig <- len h seq ;;
    n <- len h seq ;;
    '(a, b, c) <- slice_indices start stop step n ;;
    let _slice := slice.mk a b c in
    '(r0, r1, r2) <- range_getitem_slice _len_orig _slice ;;
    Return (SeqObj seq _len_orig _slice (range_len r0 r1 r2)).

(** Lines 133-137: the subscript counted from the end when negative, then
    checked against the recorded length. *)
Definition resolve (_len : Z) (subscript : Z) : result Z :=
  let subscript := if subscript <? 0 then _len + subscript else subscript in
  if (subscript <? 0) || (_len <=? subscript) then
    Raise (IndexError "index out of range")
  else Return subscript.

(** Line 139: the index the underlying object is asked for. *)
Definition delegate (_slice : slice.t) (subscript : Z) : Z :=
  slice.start _slice + subscript * slice.step _slice.

(** [Seq.__getitem__(self, subscript)].  [SeqView] is the binding of the
    global name [SeqView] when the method runs, [len_seq] is [len(self._seq)]
    and [seq_getitem k] is [self._seq[k]]. *)
Definition __getitem__ (SeqView : option view_ctor) (h : heap)
    (len_seq : result Z) (seq_getitem : Z -> result pyres)
    (_seq : obj) (_len_orig : Z) (_slice : slice.t) (_len : Z)
    (sub : subscript) : result pyres :=
  match sub with
  | SubTuple => Raise (TypeError "multi-indices not supperted")
  | _ =>
      n <- len_seq ;;
      if negb (n =? _len_orig) then
        Raise (LengthChangedError "length of underlying sequence has changed")
      else
        match sub with
        | SubSlice s0 s1 s2 =>
            '(i0, i1, i2) <- slice_indices s0 s1 s2 _len ;;
            let start := slice.start _slice + i0 * slice.step _slice in
            let stop := start + slice.step _slice * (i1 - i0) in
            let step := slice.step _slice * i2 in
            v <- call_global "SeqView" SeqView h _seq start stop step ;;
            Return (RView v)
        | SubInt i =>
            subscript <- resolve _len i ;;
            seq_getitem (delegate _slice subscript)
        | _ =>
            Raise (TypeError
              "index must be an integer, a slice or have an __index__ method")
        end
  end.

End Seq.

Module SeqChain.

(** The loop of [SeqChain.__init__], from the running [_len]. *)
Fixpoint init_loop (h : heap) (parts : list obj) (_len : Z) : result Z :=
  match parts with
  | [] => Return _len
  | p :: parts' =>
      if negb (issequence h p) then
        Raise (TypeError ("'" ++ type_name h p ++ "' object is not a sequence"))
      else
        n <- len h p ;;
        init_loop h parts' (_len + n)
  end.

(** [SeqChain.__init__(self, *parts)] *)
Definition __init__ (h : heap) (parts : list obj) : result obj :=
  _len <- init_loop h parts 0 ;;
  Return (ChainObj parts _len).

(** The loop of [_find_position] from part number [i], with the running
    [start] and the last [ret] assigned so far ([None]: not assigned). *)
Fixpoint walk (h : heap) (index : Z) (parts : list obj) (i : nat)
    (start : Z) (ret : option (nat * Z)) : result (Z * option (nat * Z)) :=
  match parts with
  | [] => Return (start, ret)
  | p :: parts' =>
      n <- len h p ;;
      let newstart := start + n in
      let ret :=
        if (start <=? index) && (index <? newstart)
        then Some (i, index - start) else ret in
      walk h index parts' (S i) newstart ret
  end.

(** [SeqChain._find_position(self, index)]; [Return None] is Python's
    [return None]. *)
Definition _find_position (h : heap) (_parts : list obj) (_len : Z)
    (index : Z) : result (option (nat * Z)) :=
  if (index <? 0) || (_len <=? index) then Return None
  else
    '(start, ret) <- walk h index _parts 0 0 None ;;
    if negb (start =? _len) then
      Raise (LengthChangedError
               "length of one of chained sequences has changed")
    else
      match ret with
      | Some pos => Return (Some pos)
      | None =>
          Raise (UnboundLocalError
            "cannot access local variable 'ret' where it is not associated with a value")
      end.

(** [SeqChain.__getitem__(self, subscript)].  [part_getitem i k] is
    [self._parts[i][k]]. *)
Definition __getitem__ (h : heap)
    (part_getitem : nat -> Z -> result pyres)
    (_parts : list obj) (_len : Z) (sub : subscript) : result pyres :=
  match sub with
  | SubTuple => Raise (TypeError "multi-indices not supperted")
  | SubSlice start stop step =>
      v <- Seq.__init__ h (ChainObj _parts _len) start stop step ;;
      Return (RView v)
  | SubInt i =>
      pos <- _find_position h _parts _len i ;;
      match pos with
      | None => Raise (IndexError "sequence index out of bounds")
      | Some (i, k) => part_getitem i k
      end
  | SubOther =>
      Raise (TypeError
        "index must be an integer, a slice or have an __index__ method")
  end.

End SeqChain.

(** [parts[i]] for the tuple [parts], continued by [f]. *)
Definition tuple_getitem {A : Type} (f : obj -> result A)
  : list obj -> nat -> result A :=
  fix go (parts : list obj) (i : nat) : result A :=
    match parts, i with
    | p :: _, O => f p
    | _ :: parts', S i' => go parts' i'
    | [], _ => Raise (IndexError "tuple index out of range")
    end.

(** [o[sub]]: the subscript expression, dispatched on the type of [o]. *)
Fixpoint getitem (SeqView : option view_ctor) (h : heap) (o : obj)
    (sub : subscript) {struct o} : result pyres :=
  match o with
  | Ref r => builtin_getitem (h r) sub
  | SeqObj s lo sl n =>
      Seq.__getitem__ SeqView h (len h s)
        (fun k => getitem SeqView h s (SubInt k)) s lo sl n sub
  | ChainObj parts n =>
      SeqChain.__getitem__ h
        (fun i k =>
           tuple_getitem (fun p => getitem SeqView h p (SubInt k)) parts i)
        parts n sub
  end.

(** The module binds no name [SeqView]: its top-level names are [make], [gen],
    [LengthChangedError], [issequence], [Repr], [SeqMixin], [Seq], [SeqChain]
    and [seq]. *)
Definition views_SeqView : option view_ctor := None.

(** [Seq] itself as the callable, for comparison. *)
Definition Seq_as_ctor : view_ctor :=
  fun h seq start stop step => Seq.__init__ h seq (Some start) (Some stop) (Some step).

(** ** Reference notions the properties are stated against *)

(** The number of indices [range(n)[start:stop:step]] runs through, from the
    construction parameters themselves. *)
Definition reference_range_length (n : Z) (start stop step : option Z)
  : result Z :=
  '(a, b, c) <- slice_indices start stop step n ;;
  Return (range_len a b c).

(** The sum of the lengths the parts have now. *)
Fixpoint sum_len (h : heap) (parts : list obj) : result Z :=
  match parts with
  | [] => Return 0
  | p :: parts' =>
      n <- len h p ;;
      m <- sum_len h parts' ;;
      Return (n + m)
  end.

(** [len] answers with a non-negative integer, as Python requires of
    [__len__]. *)
Definition len_nonneg (h : heap) (o : obj) : Prop :=
  forall n, len h o = Return n -> 0 <= n.

(** The elements of [o] in order: [o[0], ..., o[len(o) - 1]]. *)
Definition elements (SeqView : option view_ctor) (h : heap) (o : obj)
  : list (result pyres) :=
  match len h o with
  | Return n => map (fun k => getitem SeqView h o (SubInt k)) (range_items 0 1 n)
  | Raise _ => []
  end.

(** The parts laid end to end: [P1 ++ P2 ++ ... ++ Pn]. *)
Definition flatten (SeqView : option view_ctor) (h : heap) (parts : list obj)
  : list (result pyres) :=
  flat_map (elements SeqView h) parts.

(** ** Example heaps *)

Definition digits : list value := map VInt [0; 1; 2; 3; 4; 5; 6; 7; 8; 9].

(** Address 0: the list [0..9]; 1: [[0,1,2]]; 2: ["abc"]; 3: [[0,1]];
    4: [[2,3,4]]; 5: the int 7; 6: a set; everything else [None]. *)
Definition example_heap : heap :=
  fun r =>
    match r with
    | 0%nat => PyList digits
    | 1%nat => PyList [VInt 0; VInt 1; VInt 2]
    | 2%nat => PyStr "abc"
    | 3%nat => PyList [VInt 0; VInt 1]
    | 4%nat => PyList [VInt 2; VInt 3; VInt 4]
    | 5%nat => PyInt 7
    | 6%nat => PySet [VInt 1]
    | _ => PyNone
    end.

(** [example_heap] after the list at address 4 was truncated to two items. *)
Definition truncated_heap : heap :=
  fun r =>
    match r with
    | 4%nat => PyList [VInt 2; VInt 3]
    | _ => example_heap r
    end.

(** [example_heap] after an item was appended to the list at address 0. *)
Definition grown_heap : heap :=
  fun r =>
    match r with
    | 0%nat => PyList (digits ++ [VInt 10])
    | _ => example_heap r
    end.

(** ** The comprehension syntax: [seq[...]] and [gen[...]] *)

(** An item of the subscript tuple: a slice object [start:stop:step], or any
    other object.  Of [start] and [stop] the code only asks whether they are
    [None]. *)
Inductive arg : Type :=
| ArgObj (v : value)
| ArgSlice (start stop : option value) (step : obj).

(** What the comprehensions raise: an exception of the views, or
    [SyntaxError]. *)
Inductive raised : Type :=
| Exn (e : exn)
| SyntaxError (msg : string).

Inductive outcome (A : Type) : Type :=
| Done (a : A)
| Fail (r : raised).
Arguments Done {A} a.
Arguments Fail {A} r.

(** The heap with a new object at the address [r]. *)
Definition alloc (h : heap) (r : nat) (o : pyobj) : heap :=
  fun r' => if Nat.eqb r' r then o else h r'.

(** [hasattr(type(o), '__iter__')]: lists, strings and sets have it; the two
    views define [__getitem__] and [__len__] only. *)
Definition hasattr___iter__ (h : heap) (o : obj) : bool :=
  match o with
  | Ref r => match h r with PyList _ | PyStr _ | PySet _ => true | _ => false end
  | _ => false
  end.

(** [hasattr(type(o), '__next__')]: none of these objects is an iterator. *)
Definition hasattr___next__ (h : heap) (o : obj) : bool := false.

Module seq.

(** The generator [parts] of [seq.__getitem__], run to its end from the item
    [args] on with the pending [part].  A part that is yielded is a new list:
    it is put at the address [next], the first one not in use. *)
Fixpoint parts (h : heap) (next : nat) (args : list arg) (part : list value)
  : outcome (list obj * heap * nat) :=
  match args with
  | [] =>
      match part with
      | [] => Done ([], h, next)
      | _ :: _ => Done ([Ref next], alloc h next (PyList part), S next)
      end
  | ArgObj v :: args' => parts h next args' (part ++ [v])
  | ArgSlice None None obj :: args' =>
      if negb (issequence h obj) then
        Fail (Exn (TypeError ("'" ++ type_name h obj
                                ++ "' object is not a sequence and cannot be chained")))
      else
        match part with
        | [] =>
            match parts h next args' [] with
            | Done (ps, h', next') => Done (obj :: ps, h', next')
            | Fail r => Fail r
            end
        | _ :: _ =>
            match parts (alloc h next (PyList part)) (S next) args' [] with
            | Done (ps, h', next') => Done (Ref next :: obj :: ps, h', next')
            | Fail r => Fail r
            end
        end
  | ArgSlice _ _ _ :: _ =>
      Fail (SyntaxError "Invalid syntax in chain generator expression")
  end.

(** [seq.__getitem__(self, args)], for [args] already a tuple: the chain, the
    heap with the new lists, and the next address not in use. *)
Definition __getitem__ (h : heap) (next : nat) (args : list arg)
  : outcome (obj * heap * nat) :=
  match parts h next args [] with
  | Done (ps, h', next') =>
      match SeqChain.__init__ h' ps with
      | Return c => Done (c, h', next')
      | Raise e => Fail (Exn e)
      end
  | Fail r => Fail r
  end.

End seq.

Module gen.

(** What [parts] yields in [gen.__getitem__]: a list of plain items, or the
    iterator [iter(obj)] of an embedded object. *)
Inductive part : Type :=
| Items (items : list value)
| Iter (obj : obj).

(** The generator [parts] of [gen.__getitem__], run to its end from the item
    [args] on with the pending list [pending]. *)
Fixpoint parts (h : heap) (args : list arg) (pending : list value)
  : outcome (list part) :=
  match args with
  | [] =>
      match pending with
      | [] => Done []
      | _ :: _ => Done [Items pending]
      end
  | ArgObj v :: args' => parts h args' (pending ++ [v])
  | ArgSlice None None obj :: args' =>
      if negb (if hasattr___iter__ h obj then true else hasattr___next__ h obj)
      then
        Fail (Exn (TypeError ("'" ++ type_name h obj
                                ++ "' object is not iterable and cannot be chained")))
      else
        match parts h args' [] with
        | Done ps =>
            match pending with
            | [] => Done (Iter obj :: ps)
            | _ :: _ => Done (Items pending :: Iter obj :: ps)
            end
        | Fail r => Fail r
        end
  | ArgSlice _ _ _ :: _ =>
      Fail (SyntaxError "invalid syntax in generator comprehension")
  end.



(** [gen.__getitem__(self, args)], for [args] already a tuple: the parts the
    returned generator runs through. *)
Definition __getitem__ (h : heap) (args : list arg) : outcome (list part) :=
  parts h args [].

End gen.

(** The arguments of [seq[...]] laid end to end: a plain object is itself, a
    slice [::obj] stands for the elements of [obj]. *)
Definition seq_expand (SeqView : option view_ctor) (h : heap) (args : list arg)
  : list (result pyres) :=
  flat_map (fun a =>
              match a with
              | ArgObj v => [Return (RElem v)]
              | ArgSlice _ _ obj => elements SeqView h obj
              end) args.


(** The arguments [seq[...]] accepts: plain objects and slices [::obj] with
    [obj] a sequence. *)
Definition seq_accepts (h : heap) (a : arg) : bool :=
  match a with
  | ArgObj _ => true
  | ArgSlice None None obj => issequence h obj
  | ArgSlice _ _ _ => false
  end.

(** The arguments [gen[...]] accepts: plain objects and slices [::obj] with
    [obj] a list, a str or a set. *)
Definition gen_accepts (h : heap) (a : arg) : bool :=
  match a with
  | ArgObj _ => true
  | ArgSlice None None obj => hasattr___iter__ h obj
  | ArgSlice _ _ _ => false
  end.

(** The embedded object of a slice argument answers [len] with a non-negative
    integer. *)
Definition arg_len_nonneg (h : heap) (a : arg) : Prop :=
  match a with
  | ArgObj _ => True
  | ArgSlice _ _ obj => len_nonneg h obj
  end.

(** ** Display *)

(** The items [[*o]] reads from an object that has [__getitem__] and no
    [__iter__]: [o[k]], [o[k + 1]], ... up to the first [IndexError]; any
    other exception is raised.  [None]: [fuel] accesses were not enough, or
    an access returned something that is not an element. *)
Fixpoint iterate (SeqView : option view_ctor) (h : heap) (o : obj) (k : Z)
    (fuel : nat) : option (result (list value)) :=
  match fuel with
  | O => None
  | S fuel' =>
      match getitem SeqView h o (SubInt k) with
      | Raise (IndexError _) => Some (Return [])
      | Raise e => Some (Raise e)
      | Return (RElem v) =>
          match iterate SeqView h o (k + 1) fuel' with
          | Some (Return vs) => Some (Return (v :: vs))
          | other => other
          end
      | Return _ => None
      end
  end.

(** [[*o]] for a view [o]: one access more than the recorded length.  A list
    or a str has its own [__iter__] and is left out. *)
Definition unpack (SeqView : option view_ctor) (h : heap) (o : obj)
  : option (result (list value)) :=
  match o with
  | Ref _ => None
  | SeqObj _ _ _ n => iterate SeqView h o 0 (S (Z.to_nat n))
  | ChainObj _ n => iterate SeqView h o 0 (S (Z.to_nat n))
  end.

(** A view whose own length check passes on the heap [h]. *)
Definition unchanged (h : heap) (o : obj) : Prop :=
  match o with
  | Ref _ => False
  | SeqObj s lo _ _ => len h s = Return lo
  | ChainObj _ _ => True
  end.

Module SeqMixin.

Definition REPR_ITEMS : Z := 10.
Definition REPR_SPLIT : Z * Z := (5, 4).

(** What the displayed list holds: an item of the view, or [Repr("...")]. *)
Inductive shown : Type :=
| Item (v : value)
| Dots.

(** [repr] of that list, given the [repr] of an item. *)
Definition repr_list (repr_item : value -> string) (xs : list shown) : string :=
  "[" ++ String.concat ", "
           (map (fun x => match x with Item v => repr_item v | Dots => "..." end) xs)
      ++ "]".

(** [template.format(body)] for the length [n]. *)
Definition template (n : Z) (body : string) : string :=
  "<sequence view " ++ NilZero.string_of_int (Z.to_int n) ++ ": " ++ body ++ " >".

(** [SeqMixin.__repr__(self)] for a view [self].  [None]: outside what
    [unpack] covers. *)
Definition __repr__ (repr_item : value -> string) (SeqView : option view_ctor)
    (h : heap) (self : obj) : option (result string) :=
  match len h self with
  | Raise e => Some (Raise e)
  | Return n =>
      if n <=? REPR_ITEMS then
        match unpack SeqView h self with
        | Some (Return vs) =>
            Some (Return (template n (repr_list repr_item (map Item vs))))
        | Some (Raise e) => Some (Raise e)
        | None => None
        end
      else
        match getitem SeqView h self (SubSlice None (Some (fst REPR_SPLIT)) None) with
        | Raise e => Some (Raise e)
        | Return (RView head) =>
            match unpack SeqView h head with
            | Some (Return vs) =>
                match getitem SeqView h self
                        (SubSlice (Some (- snd REPR_SPLIT)) None None) with
                | Raise e => Some (Raise e)
                | Return (RView tail) =>
                    match unpack SeqView h tail with
                    | Some (Return ws) =>
                        Some (Return
                                (template n
                                   (repr_list repr_item
                                      (map Item vs ++ [Dots] ++ map Item ws)%list)))
                    | Some (Raise e) => Some (Raise e)
                    | None => None
                    end
                | Return _ => None
                end
            | Some (Raise e) => Some (Raise e)
            | None => None
            end
        | Return _ => None
        end
  end.

End SeqMixin.

(** A [repr] for the examples: decimal integers, [None], and strings that
    need no escape. *)
Definition example_repr (v : value) : string :=
  match v with
  | VInt z => NilZero.string_of_int (Z.to_int z)
  | VStr s => "'" ++ s ++ "'"
  | VNone => "None"
  end.

(** * Properties *)

(** ** Unfolding equations *)

Lemma getitem_Seq (SeqView : option view_ctor) (h : heap) (s : obj) (lo : Z)
    (sl : slice.t) (n : Z) (sub : subscript) :
  getitem SeqView h (SeqObj s lo sl n) sub =
  Seq.__getitem__ SeqView h (len h s)
    (fun k => getitem SeqView h s (SubInt k)) s lo sl n sub.
Proof. reflexivity. Qed.

Lemma getitem_Chain (SeqView : option view_ctor) (h : heap) (parts : list obj)
    (n : Z) (sub : subscript) :
  getitem SeqView h (ChainObj parts n) sub =
  SeqChain.__getitem__ h
    (fun i k => tuple_getitem (fun p => getitem SeqView h p (SubInt k)) parts i)
    parts n sub.
Proof. reflexivity. Qed.

Lemma bind_Return {A B : Type} (a : A) (k : A -> result B) :
  bind (Return a) k = k a.
Proof. reflexivity. Qed.

Lemma bind_Raise {A B : Type} (e : exn) (k : A -> result B) :
  bind (Raise e) k = Raise e.
Proof. reflexivity. Qed.

Lemma bind_inv {A B : Type} (m : result A) (k : A -> result B) (b : B) :
  bind m k = Return b -> exists a, m = Return a /\ k a = Return b.
Proof.
  destruct m as [a | e]; simpl; intros H.
  - exists a; split; [reflexivity | exact H].
  - discriminate H.
Qed.

(** ** The capability check *)

Lemma issequence_len (h : heap) (o : obj) :
  issequence h o = true -> exists n, len h o = Return n.
Proof.
  unfold issequence; destruct o as [r | s lo sl n | parts n]; simpl.
  - destruct (h r); simpl; intros H; try discriminate H; eexists; reflexivity.
  - intros _; exists n; reflexivity.
  - intros _; exists n; reflexivity.
Qed.

Lemma init_loop_first_offender (h : heap) (parts : list obj) :
  existsb (fun p => negb (issequence h p)) parts = true ->
  forall acc, exists p,
    In p parts /\ issequence h p = false /\
    SeqChain.init_loop h parts acc =
      Raise (TypeError ("'" ++ type_name h p ++ "' object is not a sequence")).
Proof.
  induction parts as [| q parts IH]; simpl; intros Hex acc.
  - discriminate Hex.
  - destruct (issequence h q) eqn:Hq; simpl in *.
    + destruct (issequence_len h q Hq) as [n Hn]; rewrite Hn; simpl.
      destruct (IH Hex (acc + n)) as [p [Hin [Hp Hr]]].
      exists p; auto.
    + exists q; auto.
Qed.

(** C8: [Seq.__init__] raises [TypeError] when the offered collection is not
    a sequence (it lacks [__getitem__] or [__len__]), and [SeqChain.__init__]
    raises [TypeError] when some part is not; in both cases the message is
    built from the type name of the offending object. *)
Theorem construct_rejects_non_sequence (h : heap) (seq : obj)
    (start stop step : option Z) (parts : list obj) :
  (issequence h seq = false ->
   Seq.__init__ h seq start stop step =
     Raise (TypeError ("'" ++ type_name h seq ++ "' object is not a sequence")))
  /\
  (existsb (fun p => negb (issequence h p)) parts = true ->
   exists p,
     In p parts /\ issequence h p = false /\
     SeqChain.__init__ h parts =
       Raise (TypeError ("'" ++ type_name h p ++ "' object is not a sequence"))).
Proof.
  split.
  - intros Hseq; unfold Seq.__init__; rewrite Hseq; reflexivity.
  - intros Hex.
    destruct (init_loop_first_offender h parts Hex 0) as [p [Hin [Hp Hr]]].
    exists p; repeat split; auto.
    unfold SeqChain.__init__; rewrite Hr; reflexivity.
Qed.

Lemma construct_rejects_non_sequence_witness :
  Seq.__init__ example_heap (Ref 5) None None None =
    Raise (TypeError "'int' object is not a sequence")
  /\
  exists p,
    In p [Ref 1; Ref 6; Ref 5] /\ issequence example_heap p = false /\
    SeqChain.__init__ example_heap [Ref 1; Ref 6; Ref 5] =
      Raise (TypeError
               ("'" ++ type_name example_heap p ++ "' object is not a sequence")).
Proof.
  destruct (construct_rejects_non_sequence example_heap (Ref 5) None None None
              [Ref 1; Ref 6; Ref 5]) as [Hseq Hchain].
  split.
  - apply Hseq; reflexivity.
  - apply Hchain; reflexivity.
Defined.

(** ** Staleness of a [Seq] *)

(** C7: whatever the subscript of a [Seq] access is, an integer or a slice
    (anything but a tuple), if the underlying collection's length now differs
    from the [_len_orig] recorded at construction, the access raises
    [LengthChangedError]; the length is read from the heap of the access. *)
Theorem Seq_getitem_length_changed (SeqView : option view_ctor) (h : heap)
    (s : obj) (lo : Z) (sl : slice.t) (n : Z) (sub : subscript) (m : Z) :
  sub <> SubTuple ->
  len h s = Return m ->
  m <> lo ->
  getitem SeqView h (SeqObj s lo sl n) sub =
    Raise (LengthChangedError "length of underlying sequence has changed").
Proof.
  intros Hsub Hlen Hne.
  rewrite getitem_Seq; unfold Seq.__getitem__; rewrite Hlen; simpl.
  assert (Hb : (m =? lo) = false) by (apply Z.eqb_neq; exact Hne).
  destruct sub; try reflexivity; try (rewrite Hb; reflexivity).
  contradiction Hsub; reflexivity.
Qed.

Lemma Seq_getitem_length_changed_witness :
  getitem views_SeqView grown_heap
    (SeqObj (Ref 0) 10 (slice.mk 0 10 1) 10) (SubInt 0) =
    Raise (LengthChangedError "length of underlying sequence has changed")
  /\
  getitem views_SeqView grown_heap
    (SeqObj (Ref 0) 10 (slice.mk 0 10 1) 10) (SubSlice None (Some 3) None) =
    Raise (LengthChangedError "length of underlying sequence has changed").
Proof.
  split.
  - apply (Seq_getitem_length_changed views_SeqView grown_heap (Ref 0) 10
             (slice.mk 0 10 1) 10 (SubInt 0) 11);
      [discriminate | reflexivity | lia].
  - apply (Seq_getitem_length_changed views_SeqView grown_heap (Ref 0) 10
             (slice.mk 0 10 1) 10 (SubSlice None (Some 3) None) 11);
      [discriminate | reflexivity | lia].
Defined.

(** ** Bounds of a [SeqChain] *)

(** C9: for an integer subscript that is negative or not below the recorded
    length, [_find_position] returns [None] at once and the access raises
    [IndexError], whatever the parts' lengths are at the time of the access:
    no [LengthChangedError] is raised. *)
Theorem SeqChain_getitem_out_of_bounds (SeqView : option view_ctor) (h : heap)
    (parts : list obj) (n i : Z) :
  i < 0 \/ n <= i ->
  SeqChain._find_position h parts n i = Return None /\
  getitem SeqView h (ChainObj parts n) (SubInt i) =
    Raise (IndexError "sequence index out of bounds").
Proof.
  intros Hi.
  assert (Hpos : SeqChain._find_position h parts n i = Return None).
  { unfold SeqChain._find_position.
    assert (Hb : (i <? 0) || (n <=? i) = true).
    { apply orb_true_iff; destruct Hi as [Hi | Hi];
        [left; apply Z.ltb_lt | right; apply Z.leb_le]; exact Hi. }
    rewrite Hb; reflexivity. }
  split; [exact Hpos |].
  rewrite getitem_Chain; unfold SeqChain.__getitem__; rewrite Hpos; reflexivity.
Qed.

Lemma SeqChain_getitem_out_of_bounds_witness :
  SeqChain.__init__ example_heap [Ref 3; Ref 4] =
    Return (ChainObj [Ref 3; Ref 4] 5) /\
  sum_len truncated_heap [Ref 3; Ref 4] = Return 4 /\
  SeqChain._find_position truncated_heap [Ref 3; Ref 4] 5 5 = Return None /\
  getitem views_SeqView truncated_heap (ChainObj [Ref 3; Ref 4] 5) (SubInt 5) =
    Raise (IndexError "sequence index out of bounds").
Proof.
  split; [reflexivity |]; split; [reflexivity |].
  apply (SeqChain_getitem_out_of_bounds views_SeqView truncated_heap
           [Ref 3; Ref 4] 5 5).
  right; lia.
Defined.

(** ** The scenario [SeqChain([0,1,2], "abc")] *)

(** C3, as the code has it: the chain of [[0,1,2]] and ["abc"] has length 6
    and its item 3 is ['a'], but a negative integer is out of bounds for a
    [SeqChain]: item -1 raises [IndexError]. *)
Theorem SeqChain_scenario :
  exists c,
    SeqChain.__init__ example_heap [Ref 1; Ref 2] = Return c /\
    len example_heap c = Return 6 /\
    getitem views_SeqView example_heap c (SubInt 3) = Return (RElem (VStr "a")) /\
    getitem views_SeqView example_heap c (SubInt (-1)) =
      Raise (IndexError "sequence index out of bounds").
Proof.
  exists (ChainObj [Ref 1; Ref 2] 6).
  repeat split; reflexivity.
Qed.

(** C3 as stated fails: item -1 of the chain is not ['c']. *)
Lemma SeqChain_scenario_negative_index :
  ~ (exists c,
       SeqChain.__init__ example_heap [Ref 1; Ref 2] = Return c /\
       len example_heap c = Return 6 /\
       getitem views_SeqView example_heap c (SubInt 3) =
         Return (RElem (VStr "a")) /\
       getitem views_SeqView example_heap c (SubInt (-1)) =
         Return (RElem (VStr "c"))).
Proof.
  intros [c [Hc [_ [_ Hget]]]].
  injection Hc as <-.
  discriminate Hget.
Qed.

(** ** Slicing a [Seq] *)

Lemma slice_indices_nonzero (start stop step : option Z) (n : Z) :
  step <> Some 0 ->
  exists i0 i1 i2, slice_indices start stop step n = Return (i0, i1, i2).
Proof.
  intros Hstep; unfold slice_indices.
  destruct step as [c |].
  - destruct (c =? 0) eqn:Hc.
    + apply Z.eqb_eq in Hc; subst c; contradiction Hstep; reflexivity.
    + do 3 eexists; reflexivity.
  - simpl; do 3 eexists; reflexivity.
Qed.

(** C1, as the code has it: for a [Seq] whose underlying collection still has
    the length recorded at construction and a slice subscript with a non-zero
    step, the slice is normalized against the view's own length into [idx],
    and [__getitem__] hands to the callable named [SeqView] the same
    underlying collection with start' = start + idx.start*step,
    stop' = start' + step*(idx.stop - idx.start) and step' = step*idx.step:
    the view's own step, not step', multiplies idx.stop - idx.start. *)
Theorem Seq_getitem_slice_composes (SeqView : option view_ctor) (h : heap)
    (s : obj) (lo : Z) (sl : slice.t) (n : Z) (s0 s1 s2 : option Z) :
  len h s = Return lo ->
  s2 <> Some 0 ->
  exists i0 i1 i2,
    slice_indices s0 s1 s2 n = Return (i0, i1, i2) /\
    getitem SeqView h (SeqObj s lo sl n) (SubSlice s0 s1 s2) =
      (v <- call_global "SeqView" SeqView h s
              (slice.start sl + i0 * slice.step sl)
              (slice.start sl + i0 * slice.step sl + slice.step sl * (i1 - i0))
              (slice.step sl * i2) ;;
       Return (RView v)).
Proof.
  intros Hlen Hstep.
  destruct (slice_indices_nonzero s0 s1 s2 n Hstep) as [i0 [i1 [i2 Hidx]]].
  exists i0, i1, i2; split; [exact Hidx |].
  rewrite getitem_Seq; unfold Seq.__getitem__.
  rewrite Hlen; simpl; rewrite Z.eqb_refl; simpl.
  rewrite Hidx; reflexivity.
Qed.

Lemma Seq_getitem_slice_composes_witness :
  Seq.__init__ example_heap (Ref 0) (Some 1) (Some 8) (Some 2) =
    Return (SeqObj (Ref 0) 10 (slice.mk 1 8 2) 4) /\
  exists i0 i1 i2,
    slice_indices (Some 1) (Some 3) None 4 = Return (i0, i1, i2) /\
    getitem (Some Seq_as_ctor) example_heap
      (SeqObj (Ref 0) 10 (slice.mk 1 8 2) 4) (SubSlice (Some 1) (Some 3) None) =
      (v <- call_global "SeqView" (Some Seq_as_ctor) example_heap (Ref 0)
              (1 + i0 * 2) (1 + i0 * 2 + 2 * (i1 - i0)) (2 * i2) ;;
       Return (RView v)).
Proof.
  split; [reflexivity |].
  apply (Seq_getitem_slice_composes (Some Seq_as_ctor) example_heap (Ref 0) 10
           (slice.mk 1 8 2) 4 (Some 1) (Some 3) None);
    [reflexivity | discriminate].
Defined.

(** C1 as stated fails on the view of [0..9] sliced by [0:4:2]: the slice
    normalizes to (0, 4, 2), for which the claim gives the triple (0, 8, 2).
    The module binds no [SeqView], so no view is returned at all; with [Seq]
    bound to that name the view has the triple (0, 4, 2). *)
Lemma Seq_getitem_slice_stop_differs :
  let v := SeqObj (Ref 0) 10 (slice.mk 0 10 1) 10 in
  let sub := SubSlice (Some 0) (Some 4) (Some 2) in
  Seq.__init__ example_heap (Ref 0) None None None = Return v /\
  slice_indices (Some 0) (Some 4) (Some 2) 10 = Return (0, 4, 2) /\
  ~ (exists lo n,
       getitem views_SeqView example_heap v sub =
         Return (RView (SeqObj (Ref 0) lo
                          (slice.mk (0 + 0 * 1) (0 + 0 * 1 + 1 * 2 * (4 - 0)) (1 * 2))
                          n))) /\
  ~ (exists lo n,
       getitem (Some Seq_as_ctor) example_heap v sub =
         Return (RView (SeqObj (Ref 0) lo
                          (slice.mk (0 + 0 * 1) (0 + 0 * 1 + 1 * 2 * (4 - 0)) (1 * 2))
                          n))) /\
  getitem (Some Seq_as_ctor) example_heap v sub =
    Return (RView (SeqObj (Ref 0) 10 (slice.mk 0 4 2) 2)).
Proof.
  simpl; repeat split; try reflexivity.
  - intros [lo [n H]]; discriminate H.
  - intros [lo [n H]]; vm_compute in H; discriminate H.
Qed.

(** On the module as it is, no slice access of a [Seq] over an unchanged
    collection returns a view: the call of [SeqView] raises [NameError]. *)
Lemma Seq_getitem_slice_unbound (h : heap) (s : obj) (lo : Z) (sl : slice.t)
    (n : Z) (s0 s1 s2 : option Z) :
  len h s = Return lo ->
  s2 <> Some 0 ->
  getitem views_SeqView h (SeqObj s lo sl n) (SubSlice s0 s1 s2) =
    Raise (NameError "name 'SeqView' is not defined").
Proof.
  intros Hlen Hstep.
  destruct (slice_indices_nonzero s0 s1 s2 n Hstep) as [i0 [i1 [i2 Hidx]]].
  rewrite getitem_Seq; unfold Seq.__getitem__.
  rewrite Hlen, bind_Return, Z.eqb_refl; simpl.
  rewrite Hidx; reflexivity.
Qed.

(** C4 at [Seq([0..9])[::-1][::]]: slicing the list itself twice gives
    [9, 8, ..., 0], but the first slice access of the view raises [NameError],
    the module binding no [SeqView]; and with [Seq] bound to that name the
    composed stop -1 is read as counted from the end, so both views are
    empty. *)
Theorem Seq_reslice_reversed :
  let v := SeqObj (Ref 0) 10 (slice.mk 0 10 1) 10 in
  let empty := SeqObj (Ref 0) 10 (slice.mk 9 9 (-1)) 0 in
  Seq.__init__ example_heap (Ref 0) None None None = Return v /\
  builtin_getitem (PyList digits) (SubSlice None None (Some (-1))) =
    Return (RNew (PyList (rev digits))) /\
  builtin_getitem (PyList (rev digits)) (SubSlice None None None) =
    Return (RNew (PyList (rev digits))) /\
  getitem views_SeqView example_heap v (SubSlice None None (Some (-1))) =
    Raise (NameError "name 'SeqView' is not defined") /\
  getitem (Some Seq_as_ctor) example_heap v (SubSlice None None (Some (-1))) =
    Return (RView empty) /\
  getitem (Some Seq_as_ctor) example_heap empty (SubSlice None None None) =
    Return (RView empty) /\
  elements (Some Seq_as_ctor) example_heap empty = [].
Proof.
  intros v empty; unfold v, empty.
  split; [reflexivity |].
  split; [reflexivity |].
  split; [reflexivity |].
  split; [apply Seq_getitem_slice_unbound; [reflexivity | discriminate] |].
  repeat split; reflexivity.
Qed.

(** ** The recorded length of a [Seq] *)

(** C6 at [Seq([0..9], step=-1)]: [range(10)[::-1]] has 10 items, but the
    constructor normalizes the slice to (9, -1, -1) and then slices
    [range(10)] with that, where the stop -1 counts from the end: the length
    it records is 0. *)
Theorem Seq_init_negative_step_length :
  reference_range_length 10 None None (Some (-1)) = Return 10 /\
  Seq.__init__ example_heap (Ref 0) None None (Some (-1)) =
    Return (SeqObj (Ref 0) 10 (slice.mk 9 (-1) (-1)) 0) /\
  len example_heap (SeqObj (Ref 0) 10 (slice.mk 9 (-1) (-1)) 0) = Return 0.
Proof.
  repeat split; reflexivity.
Qed.

(** C10 at [Seq([0..9], -100, 5, -1)]: [range(10)[-100:5:-1]] is empty, but
    the constructor records the slice (-1, 5, -1) with length 4, and the
    subscript 0 is delegated to the collection index -1, outside [0, 10); the
    list reads it as its last item. *)
Theorem Seq_getitem_delegates_negative_index :
  let v := SeqObj (Ref 0) 10 (slice.mk (-1) 5 (-1)) 4 in
  reference_range_length 10 (Some (-100)) (Some 5) (Some (-1)) = Return 0 /\
  Seq.__init__ example_heap (Ref 0) (Some (-100)) (Some 5) (Some (-1)) =
    Return v /\
  len example_heap (Ref 0) = Return 10 /\
  Seq.resolve 4 0 = Return 0 /\
  Seq.delegate (slice.mk (-1) 5 (-1)) 0 = -1 /\
  ~ (0 <= Seq.delegate (slice.mk (-1) 5 (-1)) 0 < 10) /\
  getitem views_SeqView example_heap v (SubInt 0) = Return (RElem (VInt 9)).
Proof.
  simpl; repeat split; try reflexivity.
  intros [H _]; apply H; reflexivity.
Qed.

(** ** The walk of [_find_position] *)

(** The walk ends with the running start advanced by the parts' current
    total length. *)
Lemma walk_total (h : heap) (index : Z) (parts : list obj) :
  forall (i : nat) (start : Z) (ret : option (nat * Z)) (m : Z),
    sum_len h parts = Return m ->
    exists ret', SeqChain.walk h index parts i start ret = Return (start + m, ret').
Proof.
  induction parts as [| p parts IH]; simpl; intros i start ret m Hsum.
  - injection Hsum as <-; exists ret; rewrite Z.add_0_r; reflexivity.
  - destruct (len h p) as [n | e]; simpl in *; [| discriminate Hsum].
    destruct (sum_len h parts) as [m' | e]; simpl in *; [| discriminate Hsum].
    injection Hsum as <-.
    destruct (IH (S i) (start + n)
                (if (start <=? index) && (index <? start + n)
                 then Some (i, index - start) else ret) m' eq_refl)
      as [ret' Hw].
    exists ret'; rewrite Hw; f_equal; f_equal; lia.
Qed.

Lemma slice_indices_step (start stop step : option Z) (n a b c : Z) :
  slice_indices start stop step n = Return (a, b, c) ->
  c <> 0 /\ c = match step with Some s => s | None => 1 end.
Proof.
  unfold slice_indices.
  destruct (match step with Some s => s | None => 1 end =? 0) eqn:Hc;
    [discriminate |].
  intros H; injection H as _ _ <-.
  split; [apply Z.eqb_neq; exact Hc | reflexivity].
Qed.

Lemma slice_indices_raises (start stop step : option Z) (n : Z) (e : exn) :
  slice_indices start stop step n = Raise e ->
  e = ValueError "slice step cannot be zero".
Proof.
  unfold slice_indices.
  destruct (match step with Some s => s | None => 1 end =? 0);
    [| discriminate].
  intros H; injection H as <-; reflexivity.
Qed.

Lemma Seq_init_on_chain_not_stale (h : heap) (parts : list obj) (n : Z)
    (start stop step : option Z) (msg : string) :
  Seq.__init__ h (ChainObj parts n) start stop step <>
    Raise (LengthChangedError msg).
Proof.
  unfold Seq.__init__; simpl.
  destruct (slice_indices start stop step n) as [[[a b] c] | e] eqn:Hidx; simpl.
  - unfold range_getitem_slice; simpl.
    destruct (slice_indices (Some a) (Some b) (Some c) n)
      as [[[a' b'] c'] | e] eqn:Hidx'; simpl; [discriminate |].
    apply slice_indices_raises in Hidx'; subst e; discriminate.
  - apply slice_indices_raises in Hidx; subst e; discriminate.
Qed.

(** C2, as the code has it: when the parts' current lengths no longer sum to
    the length recorded at construction, an access by an integer index within
    [0, recorded length) raises [LengthChangedError], whichever part owns the
    index; an access by slice reads no part length: it is [Seq(chain, slice)]
    and never raises [LengthChangedError]. *)
Theorem SeqChain_getitem_stale (SeqView : option view_ctor) (h : heap)
    (parts : list obj) (n m i : Z) (start stop step : option Z) :
  sum_len h parts = Return m ->
  m <> n ->
  0 <= i < n ->
  getitem SeqView h (ChainObj parts n) (SubInt i) =
    Raise (LengthChangedError "length of one of chained sequences has changed")
  /\
  getitem SeqView h (ChainObj parts n) (SubSlice start stop step) =
    (v <- Seq.__init__ h (ChainObj parts n) start stop step ;; Return (RView v))
  /\
  forall msg,
    getitem SeqView h (ChainObj parts n) (SubSlice start stop step) <>
      Raise (LengthChangedError msg).
Proof.
  intros Hsum Hne Hi; repeat split.
  - rewrite getitem_Chain; unfold SeqChain.__getitem__, SeqChain._find_position.
    assert (Hb : (i <? 0) || (n <=? i) = false).
    { apply orb_false_iff; split; [apply Z.ltb_ge | apply Z.leb_gt]; lia. }
    rewrite Hb.
    destruct (walk_total h i parts 0%nat 0 None m Hsum) as [ret' Hw].
    rewrite Hw; simpl.
    assert (Hm : (m =? n) = false) by (apply Z.eqb_neq; exact Hne).
    rewrite Hm; reflexivity.
  - intros msg; rewrite getitem_Chain; unfold SeqChain.__getitem__.
    pose proof (Seq_init_on_chain_not_stale h parts n start stop step msg) as Hns.
    destruct (Seq.__init__ h (ChainObj parts n) start stop step) as [v | e];
      simpl; [discriminate |].
    intros He; apply Hns; injection He as ->; reflexivity.
Qed.

Lemma SeqChain_getitem_stale_witness :
  SeqChain.__init__ example_heap [Ref 3; Ref 4] =
    Return (ChainObj [Ref 3; Ref 4] 5) /\
  getitem views_SeqView truncated_heap (ChainObj [Ref 3; Ref 4] 5) (SubInt 0) =
    Raise (LengthChangedError "length of one of chained sequences has changed")
  /\
  getitem views_SeqView truncated_heap (ChainObj [Ref 3; Ref 4] 5)
    (SubSlice None None None) =
    (v <- Seq.__init__ truncated_heap (ChainObj [Ref 3; Ref 4] 5) None None None ;;
     Return (RView v))
  /\
  forall msg,
    getitem views_SeqView truncated_heap (ChainObj [Ref 3; Ref 4] 5)
      (SubSlice None None None) <> Raise (LengthChangedError msg).
Proof.
  split; [reflexivity |].
  apply (SeqChain_getitem_stale views_SeqView truncated_heap [Ref 3; Ref 4]
           5 4 0 None None None); [reflexivity | lia | lia].
Defined.

(** C2 as stated fails for slices: after the second part of the chain of
    [[0,1]] and [[2,3,4]] was truncated to two items, the slice access [[:]]
    returns a view of the chain and raises nothing. *)
Lemma SeqChain_slice_ignores_staleness :
  let c := ChainObj [Ref 3; Ref 4] 5 in
  SeqChain.__init__ example_heap [Ref 3; Ref 4] = Return c /\
  len example_heap (Ref 4) = Return 3 /\
  len truncated_heap (Ref 4) = Return 2 /\
  getitem views_SeqView truncated_heap c (SubSlice None None None) =
    Return (RView (SeqObj c 5 (slice.mk 0 5 1) 5)) /\
  ~ (exists msg,
       getitem views_SeqView truncated_heap c (SubSlice None None None) =
         Raise (LengthChangedError msg)).
Proof.
  simpl; repeat split; try reflexivity.
  intros [msg H]; discriminate H.
Qed.

(** ** Integer indexing of a [SeqChain] against the flattened parts *)

Lemma nth_map_seq {A : Type} (f : nat -> A) (n j : nat) (d : A) :
  (j < n)%nat -> nth j (map f (seq 0 n)) d = f j.
Proof.
  intros Hj.
  rewrite (nth_indep _ d (f 0%nat)) by (rewrite length_map, length_seq; exact Hj).
  rewrite map_nth, seq_nth by exact Hj.
  reflexivity.
Qed.

Lemma length_elements (SeqView : option view_ctor) (h : heap) (p : obj) (n : Z) :
  len h p = Return n ->
  List.length (elements SeqView h p) = Z.to_nat n.
Proof.
  intros Hlen; unfold elements, range_items; rewrite Hlen.
  rewrite !length_map, length_seq; reflexivity.
Qed.

Lemma nth_elements (SeqView : option view_ctor) (h : heap) (p : obj) (n k : Z)
    (d : result pyres) :
  len h p = Return n ->
  0 <= k < n ->
  nth (Z.to_nat k) (elements SeqView h p) d = getitem SeqView h p (SubInt k).
Proof.
  intros Hlen Hk; unfold elements, range_items; rewrite Hlen.
  rewrite map_map, nth_map_seq by lia.
  do 2 f_equal; lia.
Qed.

(** Once the running start is past the index, the walk assigns nothing. *)
Lemma walk_past (h : heap) (index : Z) (parts : list obj) :
  forall (i : nat) (start : Z) (ret : option (nat * Z)) (m : Z),
    Forall (len_nonneg h) parts ->
    sum_len h parts = Return m ->
    index < start ->
    0 <= m /\ SeqChain.walk h index parts i start ret = Return (start + m, ret).
Proof.
  induction parts as [| p parts IH]; simpl; intros i start ret m Hnn Hsum Hlt.
  - injection Hsum as <-; rewrite Z.add_0_r; split; [lia | reflexivity].
  - inversion Hnn as [| p' parts' Hp Hparts]; subst.
    destruct (len h p) as [n | e] eqn:Hlen; simpl in *; [| discriminate Hsum].
    destruct (sum_len h parts) as [m' | e]; simpl in *; [| discriminate Hsum].
    injection Hsum as <-.
    pose proof (Hp n Hlen) as Hn.
    assert (Hc : (start <=? index) && (index <? start + n) = false).
    { apply andb_false_iff; left; apply Z.leb_gt; exact Hlt. }
    rewrite Hc.
    destruct (IH (S i) (start + n) ret m' Hparts eq_refl) as [Hm' Hw]; [lia |].
    rewrite Hw; split; [lia | f_equal; f_equal; lia].
Qed.

(** The walk assigns the part that owns the index, and the item of that part
    at the offset is the item of the flattened parts at the index. *)
Lemma walk_owner (SeqView : option view_ctor) (h : heap) (index : Z)
    (d : result pyres) (parts : list obj) :
  forall (i : nat) (start : Z) (ret : option (nat * Z)) (m : Z),
    Forall (len_nonneg h) parts ->
    sum_len h parts = Return m ->
    start <= index < start + m ->
    exists j k,
      SeqChain.walk h index parts i start ret =
        Return (start + m, Some ((i + j)%nat, k)) /\
      tuple_getitem (fun p => getitem SeqView h p (SubInt k)) parts j =
        nth (Z.to_nat (index - start)) (flatten SeqView h parts) d.
Proof.
  induction parts as [| p parts IH]; simpl; intros i start ret m Hnn Hsum Hin.
  - injection Hsum as <-; lia.
  - inversion Hnn as [| p' parts' Hp Hparts]; subst.
    destruct (len h p) as [n | e] eqn:Hlen; simpl in *; [| discriminate Hsum].
    destruct (sum_len h parts) as [m' | e] eqn:Hrest; simpl in *;
      [| discriminate Hsum].
    injection Hsum as <-.
    pose proof (Hp n Hlen) as Hn.
    pose proof (length_elements SeqView h p n Hlen) as Hlen_el.
    destruct (Z_lt_ge_dec index (start + n)) as [Hlt | Hge].
    + assert (Hc : (start <=? index) && (index <? start + n) = true).
      { apply andb_true_iff; split; [apply Z.leb_le | apply Z.ltb_lt]; lia. }
      rewrite Hc.
      destruct (walk_past h index parts (S i) (start + n)
                  (Some (i, index - start)) m' Hparts Hrest Hlt) as [_ Hw].
      exists 0%nat, (index - start); split.
      * rewrite Hw, Nat.add_0_r; f_equal; f_equal; lia.
      * rewrite app_nth1 by lia.
        symmetry; apply (nth_elements SeqView h p n); [exact Hlen | lia].
    + assert (Hc : (start <=? index) && (index <? start + n) = false).
      { apply andb_false_iff; right; apply Z.ltb_ge; lia. }
      rewrite Hc.
      destruct (IH (S i) (start + n) ret m' Hparts eq_refl) as [j [k [Hw Hget]]];
        [lia |].
      exists (S j), k; split.
      * rewrite Hw; f_equal; f_equal; [lia | f_equal; f_equal; lia].
      * rewrite app_nth2 by lia.
        simpl; rewrite Hget; f_equal; lia.
Qed.

Lemma init_loop_sum (h : heap) (parts : list obj) :
  forall acc n,
    SeqChain.init_loop h parts acc = Return n ->
    exists m, sum_len h parts = Return m /\ n = acc + m.
Proof.
  induction parts as [| p parts IH]; simpl; intros acc n Hinit.
  - injection Hinit as <-; exists 0; split; [reflexivity | lia].
  - destruct (issequence h p); simpl in Hinit; [| discriminate Hinit].
    destruct (len h p) as [l | e]; simpl in *; [| discriminate Hinit].
    destruct (IH (acc + l) n Hinit) as [m [Hsum Hn]].
    rewrite Hsum; simpl; exists (l + m); split; [reflexivity | lia].
Qed.

Lemma sum_len_ext (h h0 : heap) (parts : list obj) :
  Forall (fun p => len h p = len h0 p) parts ->
  sum_len h parts = sum_len h0 parts.
Proof.
  induction 1 as [| p parts Hp _ IH]; simpl; [reflexivity |].
  rewrite Hp, IH; reflexivity.
Qed.

Lemma length_flatten (SeqView : option view_ctor) (h : heap) (parts : list obj) :
  forall m,
    Forall (len_nonneg h) parts ->
    sum_len h parts = Return m ->
    Z.of_nat (List.length (flatten SeqView h parts)) = m.
Proof.
  induction parts as [| p parts IH]; simpl; intros m Hnn Hsum.
  - injection Hsum as <-; reflexivity.
  - inversion Hnn as [| p' parts' Hp Hparts]; subst.
    destruct (len h p) as [n | e] eqn:Hlen; simpl in *; [| discriminate Hsum].
    destruct (sum_len h parts) as [m' | e]; simpl in *; [| discriminate Hsum].
    injection Hsum as <-.
    rewrite length_app, (length_elements SeqView h p n Hlen), Nat2Z.inj_add.
    fold (flatten SeqView h parts).
    rewrite (IH m' Hparts eq_refl), Z2Nat.id by (apply Hp; exact Hlen).
    reflexivity.
Qed.

(** C5: for a chain built from [parts] whose lengths are now what they were
    at construction, the flattened parts have as many items as the chain's
    length, and for every integer [i] in [0, Length) the item [i] of the
    chain is the item at position [i] of the flattened parts. *)
Theorem SeqChain_getitem_flatten (SeqView : option view_ctor) (h0 h : heap)
    (parts : list obj) (c : obj) (n i : Z) :
  SeqChain.__init__ h0 parts = Return c ->
  Forall (fun p => len h p = len h0 p) parts ->
  Forall (len_nonneg h) parts ->
  len h c = Return n ->
  0 <= i < n ->
  Z.of_nat (List.length (flatten SeqView h parts)) = n /\
  getitem SeqView h c (SubInt i) =
    nth (Z.to_nat i) (flatten SeqView h parts)
        (Raise (IndexError "list index out of range")).
Proof.
  intros Hinit Hsame Hnn Hlen Hi.
  unfold SeqChain.__init__ in Hinit.
  apply bind_inv in Hinit as [n0 [Hloop Hc]].
  injection Hc as <-; simpl in Hlen; injection Hlen as ->.
  destruct (init_loop_sum h0 parts 0 n Hloop) as [m [Hsum0 Hn]].
  simpl in Hn; subst m.
  assert (Hsum : sum_len h parts = Return n)
    by (rewrite (sum_len_ext h h0 parts Hsame); exact Hsum0).
  split; [apply length_flatten; assumption |].
  rewrite getitem_Chain; unfold SeqChain.__getitem__, SeqChain._find_position.
  assert (Hb : (i <? 0) || (n <=? i) = false).
  { apply orb_false_iff; split; [apply Z.ltb_ge | apply Z.leb_gt]; lia. }
  rewrite Hb.
  destruct (walk_owner SeqView h i (Raise (IndexError "list index out of range"))
              parts 0%nat 0 None n Hnn Hsum) as [j [k [Hw Hget]]]; [lia |].
  rewrite Hw; simpl; rewrite Z.eqb_refl; simpl.
  rewrite Hget, Z.sub_0_r; reflexivity.
Qed.

Lemma SeqChain_getitem_flatten_witness :
  SeqChain.__init__ example_heap [Ref 1; Ref 2] =
    Return (ChainObj [Ref 1; Ref 2] 6) /\
  Z.of_nat (List.length (flatten views_SeqView example_heap [Ref 1; Ref 2])) = 6 /\
  getitem views_SeqView example_heap (ChainObj [Ref 1; Ref 2] 6) (SubInt 4) =
    nth (Z.to_nat 4) (flatten views_SeqView example_heap [Ref 1; Ref 2])
        (Raise (IndexError "list index out of range")).
Proof.
  split; [reflexivity |].
  apply (SeqChain_getitem_flatten views_SeqView example_heap example_heap
           [Ref 1; Ref 2] (ChainObj [Ref 1; Ref 2] 6) 6 4).
  - reflexivity.
  - repeat constructor.
  - repeat constructor; intros n Hn; injection Hn as <-; simpl; lia.
  - reflexivity.
  - lia.
Defined.

(** ** What the hypotheses of the flattening property rest on *)

Lemma len_nonneg_Ref (h : heap) (r : nat) : len_nonneg h (Ref r).
Proof.
  intros n; simpl; destruct (h r); intros H; try discriminate H;
    injection H as <-; apply Nat2Z.is_nonneg.
Qed.

Lemma range_len_nonneg (start stop step : Z) : 0 <= range_len start stop step.
Proof.
  unfold range_len.
  destruct (0 <? step) eqn:Hs.
  - apply Z.ltb_lt in Hs.
    destruct (start <? stop) eqn:Hlt; [| lia].
    apply Z.ltb_lt in Hlt.
    assert (0 <= (stop - start - 1) / step) by (apply Z.div_pos; lia).
    lia.
  - destruct (stop <? start) eqn:Hlt; [| lia].
    apply Z.ltb_lt in Hlt.
    destruct (Z.eq_dec step 0) as [-> | Hne].
    + simpl; rewrite Z.div_0_r; lia.
    + apply Z.ltb_ge in Hs.
      assert (0 <= (start - stop - 1) / - step) by (apply Z.div_pos; lia).
      lia.
Qed.

Lemma Seq_init_len_nonneg (h h' : heap) (seq : obj) (start stop step : option Z)
    (v : obj) :
  Seq.__init__ h seq start stop step = Return v -> len_nonneg h' v.
Proof.
  unfold Seq.__init__.
  destruct (negb (issequence h seq)); [discriminate |].
  destruct (len h seq) as [lo | e]; simpl; [| discriminate].
  destruct (slice_indices start stop step lo) as [[[a b] c] | e]; simpl;
    [| discriminate].
  destruct (range_getitem_slice lo (slice.mk a b c)) as [[[r0 r1] r2] | e];
    simpl; [| discriminate].
  intros H; injection H as <-.
  intros n Hn; injection Hn as <-; apply range_len_nonneg.
Qed.

Lemma init_loop_nonneg (h : heap) (parts : list obj) :
  Forall (len_nonneg h) parts ->
  forall acc n, SeqChain.init_loop h parts acc = Return n -> acc <= n.
Proof.
  induction 1 as [| p parts Hp _ IH]; simpl; intros acc n Hinit.
  - injection Hinit as <-; lia.
  - destruct (negb (issequence h p)); [discriminate Hinit |].
    destruct (len h p) as [l | e] eqn:Hlen; simpl in Hinit; [| discriminate Hinit].
    pose proof (Hp l Hlen); pose proof (IH (acc + l) n Hinit); lia.
Qed.

Lemma SeqChain_init_len_nonneg (h h' : heap) (parts : list obj) (c : obj) :
  Forall (len_nonneg h) parts ->
  SeqChain.__init__ h parts = Return c -> len_nonneg h' c.
Proof.
  intros Hnn Hinit; unfold SeqChain.__init__ in Hinit.
  apply bind_inv in Hinit as [n [Hloop Hc]]; injection Hc as <-.
  intros n' Hn'; injection Hn' as <-.
  apply (init_loop_nonneg h parts Hnn 0 n Hloop).
Qed.

Lemma list_getitem_nth (l : list value) (j : nat) (v : value) :
  nth_error l j = Some v -> list_getitem l (Z.of_nat j) = Return v.
Proof.
  intros Hnth.
  assert (Hj : (j < List.length l)%nat)
    by (apply nth_error_Some; rewrite Hnth; discriminate).
  unfold list_getitem.
  assert (Hneg : (Z.of_nat j <? 0) = false) by (apply Z.ltb_ge; lia).
  rewrite Hneg, Hneg; simpl.
  assert (Hin : (Z.of_nat (List.length l) <=? Z.of_nat j) = false)
    by (apply Z.leb_gt; lia).
  rewrite Hin, Nat2Z.id, Hnth; reflexivity.
Qed.

(** A list has as elements its items. *)
Lemma elements_list (SeqView : option view_ctor) (h : heap) (r : nat)
    (l : list value) :
  h r = PyList l ->
  elements SeqView h (Ref r) = map (fun v => Return (RElem v)) l.
Proof.
  intros Hr; unfold elements, range_items; simpl; rewrite Hr.
  rewrite Nat2Z.id, map_map.
  apply (nth_ext _ _ (Raise (IndexError "list index out of range"))
                     (Raise (IndexError "list index out of range"))).
  - rewrite !length_map, length_seq; reflexivity.
  - intros j Hj; rewrite length_map, length_seq in Hj.
    rewrite nth_map_seq by exact Hj.
    rewrite Z.mul_1_r; unfold builtin_getitem.
    destruct (nth_error l j) as [v |] eqn:Hnth.
    + rewrite (list_getitem_nth l j v Hnth); simpl.
      rewrite (nth_indep _ _ (Return (RElem v)))
        by (rewrite length_map; exact Hj).
      rewrite (map_nth (fun v => Return (RElem v)) l v j).
      rewrite (nth_error_nth l j v Hnth); reflexivity.
    + apply nth_error_None in Hnth; lia.
Qed.

(** ** Views with a positive step *)

(** With a positive step the normalized bounds lie in [0, n]. *)
Lemma slice_indices_positive_step (start stop step : option Z) (n a b c : Z) :
  0 <= n ->
  slice_indices start stop step n = Return (a, b, c) ->
  0 < c ->
  0 <= a <= n /\ 0 <= b <= n.
Proof.
  intros Hn Hidx Hc.
  destruct (slice_indices_step start stop step n a b c Hidx) as [_ Hstep].
  unfold slice_indices in Hidx; rewrite <- Hstep in Hidx.
  assert (H0 : (c =? 0) = false) by (apply Z.eqb_neq; lia).
  assert (H1 : (c <? 0) = false) by (apply Z.ltb_ge; lia).
  rewrite H0, H1 in Hidx.
  injection Hidx as <- <-.
  split.
  - destruct start as [s |]; [| lia].
    destruct (s <? 0) eqn:Hs; [apply Z.ltb_lt in Hs | apply Z.ltb_ge in Hs]; lia.
  - destruct stop as [s |]; [| lia].
    destruct (s <? 0) eqn:Hs; [apply Z.ltb_lt in Hs | apply Z.ltb_ge in Hs]; lia.
Qed.

(** Bounds within [0, n] and a positive step are left as they are. *)
Lemma slice_indices_fixed_positive_step (n a b c : Z) :
  0 <= a <= n -> 0 <= b <= n -> 0 < c ->
  slice_indices (Some a) (Some b) (Some c) n = Return (a, b, c).
Proof.
  intros Ha Hb Hc; unfold slice_indices.
  assert (H0 : (c =? 0) = false) by (apply Z.eqb_neq; lia).
  assert (H1 : (c <? 0) = false) by (apply Z.ltb_ge; lia).
  assert (H2 : (a <? 0) = false) by (apply Z.ltb_ge; lia).
  assert (H3 : (b <? 0) = false) by (apply Z.ltb_ge; lia).
  rewrite H0, H1, H2, H3.
  rewrite !Z.min_l by lia; reflexivity.
Qed.

(** With a positive step, [Seq.__init__] records the normalized slice and the
    number of indices it runs through. *)
Lemma Seq_init_positive_step (h : heap) (seq : obj) (start stop step : option Z)
    (v : obj) :
  len_nonneg h seq ->
  0 < match step with Some s => s | None => 1 end ->
  Seq.__init__ h seq start stop step = Return v ->
  exists n a b c,
    len h seq = Return n /\ 0 <= n /\
    slice_indices start stop step n = Return (a, b, c) /\
    0 <= a <= n /\ 0 <= b <= n /\ 0 < c /\
    v = SeqObj seq n (slice.mk a b c) (range_len a b c).
Proof.
  intros Hnn Hstep; unfold Seq.__init__.
  destruct (negb (issequence h seq)); [discriminate |].
  destruct (len h seq) as [n | e] eqn:Hlen; simpl; [| discriminate].
  pose proof (Hnn n Hlen) as Hn.
  destruct (slice_indices start stop step n) as [[[a b] c] | e] eqn:Hidx; simpl;
    [| discriminate].
  destruct (slice_indices_step start stop step n a b c Hidx) as [_ Hc].
  rewrite <- Hc in Hstep.
  destruct (slice_indices_positive_step start stop step n a b c Hn Hidx Hstep)
    as [Ha Hb].
  unfold range_getitem_slice; simpl.
  rewrite (slice_indices_fixed_positive_step n a b c Ha Hb Hstep); simpl.
  intros H; injection H as <-.
  exists n, a, b, c; repeat split; try lia; try exact Hidx.
  rewrite !Z.mul_1_r.
  destruct c; reflexivity.
Qed.

(** With a positive step, the recorded length of a [Seq] is the number of
    items of [range(len_orig)[start:stop:step]]. *)
Lemma Seq_length_positive_step (h h' : heap) (seq : obj)
    (start stop step : option Z) (v : obj) :
  len_nonneg h seq ->
  0 < match step with Some s => s | None => 1 end ->
  Seq.__init__ h seq start stop step = Return v ->
  exists n,
    len h seq = Return n /\
    len h' v = reference_range_length n start stop step.
Proof.
  intros Hnn Hstep Hinit.
  destruct (Seq_init_positive_step h seq start stop step v Hnn Hstep Hinit)
    as [n [a [b [c [Hlen [_ [Hidx [_ [_ [_ ->]]]]]]]]]].
  exists n; split; [exact Hlen |].
  unfold reference_range_length; rewrite Hidx; reflexivity.
Qed.

(** The recorded length of a [SeqChain] is the sum of the parts' lengths at
    construction. *)
Lemma SeqChain_length_sum (h h' : heap) (parts : list obj) (c : obj) :
  SeqChain.__init__ h parts = Return c ->
  len h' c = sum_len h parts.
Proof.
  intros Hinit; unfold SeqChain.__init__ in Hinit.
  apply bind_inv in Hinit as [n [Hloop Hc]]; injection Hc as <-.
  destruct (init_loop_sum h parts 0 n Hloop) as [m [Hsum Hn]].
  rewrite Hsum; simpl in *; subst; reflexivity.
Qed.

(** With a positive step, a resolved subscript is delegated to a collection
    index within [0, len_orig). *)
Lemma Seq_delegate_positive_step (h : heap) (seq : obj)
    (start stop step : option Z) (s : obj) (lo : Z) (sl : slice.t) (n i k : Z) :
  len_nonneg h seq ->
  0 < match step with Some s => s | None => 1 end ->
  Seq.__init__ h seq start stop step = Return (SeqObj s lo sl n) ->
  Seq.resolve n i = Return k ->
  0 <= k < n /\ 0 <= Seq.delegate sl k < lo.
Proof.
  intros Hnn Hstep Hinit Hres.
  destruct (Seq_init_positive_step h seq start stop step _ Hnn Hstep Hinit)
    as [n' [a [b [c [_ [_ [_ [Ha [Hb [Hc Hv]]]]]]]]]].
  injection Hv as -> -> -> ->.
  unfold Seq.resolve in Hres.
  destruct ((if i <? 0 then range_len a b c + i else i) <? 0) eqn:H1;
    simpl in Hres; [discriminate Hres |].
  destruct (range_len a b c <=? (if i <? 0 then range_len a b c + i else i))
    eqn:H2; simpl in Hres; [discriminate Hres |].
  injection Hres as Hk.
  apply Z.ltb_ge in H1; apply Z.leb_gt in H2; rewrite Hk in H1, H2.
  split; [lia |].
  unfold Seq.delegate; simpl.
  unfold range_len in H2.
  assert (Hpos : (0 <? c) = true) by (apply Z.ltb_lt; exact Hc).
  rewrite Hpos in H2.
  destruct (a <? b) eqn:Hab; [| lia].
  apply Z.ltb_lt in Hab.
  pose proof (Z.mul_div_le (b - a - 1) c Hc) as Hdiv.
  assert (Hkc : k * c <= c * ((b - a - 1) / c)) by nia.
  nia.
Qed.

(** * Further properties of the views *)

(** ** A [Seq] whose normalized bounds are not negative *)

(** With a negative step the normalized bounds lie in [-1, n - 1]. *)
Lemma slice_indices_negative_step (start stop step : option Z) (n a b c : Z) :
  0 <= n ->
  slice_indices start stop step n = Return (a, b, c) ->
  c < 0 ->
  -1 <= a <= n - 1 /\ -1 <= b <= n - 1.
Proof.
  intros Hn Hidx Hc.
  destruct (slice_indices_step start stop step n a b c Hidx) as [_ Hstep].
  unfold slice_indices in Hidx; rewrite <- Hstep in Hidx.
  assert (H0 : (c =? 0) = false) by (apply Z.eqb_neq; lia).
  assert (H1 : (c <? 0) = true) by (apply Z.ltb_lt; lia).
  rewrite H0, H1 in Hidx.
  injection Hidx as <- <-.
  split.
  - destruct start as [s |]; [| lia].
    destruct (s <? 0) eqn:Hs; [apply Z.ltb_lt in Hs | apply Z.ltb_ge in Hs]; lia.
  - destruct stop as [s |]; [| lia].
    destruct (s <? 0) eqn:Hs; [apply Z.ltb_lt in Hs | apply Z.ltb_ge in Hs]; lia.
Qed.

(** Normalized bounds that are not negative are left as they are when the
    slice is normalized again. *)
Lemma slice_indices_idempotent (start stop step : option Z) (n a b c : Z) :
  0 <= n ->
  slice_indices start stop step n = Return (a, b, c) ->
  0 <= a -> 0 <= b ->
  slice_indices (Some a) (Some b) (Some c) n = Return (a, b, c).
Proof.
  intros Hn Hidx Ha Hb.
  destruct (slice_indices_step start stop step n a b c Hidx) as [Hc _].
  destruct (Z_lt_ge_dec 0 c) as [Hpos | Hneg].
  - destruct (slice_indices_positive_step start stop step n a b c Hn Hidx Hpos)
      as [Ha' Hb'].
    apply slice_indices_fixed_positive_step; lia.
  - assert (Hc' : c < 0) by lia.
    destruct (slice_indices_negative_step start stop step n a b c Hn Hidx Hc')
      as [Ha' Hb'].
    unfold slice_indices.
    assert (H0 : (c =? 0) = false) by (apply Z.eqb_neq; lia).
    assert (H1 : (c <? 0) = true) by (apply Z.ltb_lt; lia).
    assert (H2 : (a <? 0) = false) by (apply Z.ltb_ge; lia).
    assert (H3 : (b <? 0) = false) by (apply Z.ltb_ge; lia).
    rewrite H0, H1, H2, H3.
    rewrite !Z.min_l by lia; reflexivity.
Qed.

(** The items of a non-empty range stay on the side of [start] that [stop]
    lies on. *)
Lemma range_len_item (a b c k : Z) :
  c <> 0 ->
  0 <= k < range_len a b c ->
  (0 < c -> a <= a + k * c < b) /\ (c < 0 -> b < a + k * c <= a).
Proof.
  intros Hc Hk; unfold range_len in Hk.
  destruct (0 <? c) eqn:Hpos.
  - apply Z.ltb_lt in Hpos.
    destruct (a <? b) eqn:Hab; [| lia].
    apply Z.ltb_lt in Hab.
    pose proof (Z.mul_div_le (b - a - 1) c Hpos) as Hdiv.
    split; [intros _ | lia].
    assert (Hkc : k * c <= c * ((b - a - 1) / c)) by nia.
    nia.
  - apply Z.ltb_ge in Hpos.
    destruct (b <? a) eqn:Hba; [| lia].
    apply Z.ltb_lt in Hba.
    assert (Hneg : 0 < - c) by lia.
    pose proof (Z.mul_div_le (a - b - 1) (- c) Hneg) as Hdiv.
    split; [lia | intros _].
    assert (Hkc : k * (- c) <= (- c) * ((a - b - 1) / - c)) by nia.
    nia.
Qed.

Lemma resolve_in_range (n k : Z) :
  0 <= k < n -> Seq.resolve n k = Return k.
Proof.
  intros Hk; unfold Seq.resolve.
  assert (H0 : (k <? 0) = false) by (apply Z.ltb_ge; lia).
  assert (H1 : (n <=? k) = false) by (apply Z.leb_gt; lia).
  rewrite H0, H0, H1; reflexivity.
Qed.

Lemma Seq_init_nonneg_bounds (h : heap) (seq : obj) (start stop step : option Z)
    (n a b c : Z) :
  issequence h seq = true ->
  len h seq = Return n ->
  0 <= n ->
  slice_indices start stop step n = Return (a, b, c) ->
  0 <= a -> 0 <= b ->
  Seq.__init__ h seq start stop step =
    Return (SeqObj seq n (slice.mk a b c) (range_len a b c)).
Proof.
  intros Hseq Hlen Hn Hidx Ha Hb.
  unfold Seq.__init__; rewrite Hseq, Hlen; simpl.
  rewrite Hidx; simpl.
  unfold range_getitem_slice; simpl.
  rewrite (slice_indices_idempotent start stop step n a b c Hn Hidx Ha Hb); simpl.
  rewrite !Z.mul_1_r.
  destruct c; reflexivity.
Qed.

(** Item [k] of a view with the slice (a, b, c) over an object of unchanged
    length. *)
Lemma Seq_item_nonneg_bounds (SeqView : option view_ctor) (h' : heap)
    (seq : obj) (start stop step : option Z) (n a b c k : Z) :
  0 <= n ->
  slice_indices start stop step n = Return (a, b, c) ->
  0 <= a -> 0 <= b ->
  len h' seq = Return n ->
  0 <= k < range_len a b c ->
  0 <= a + k * c < n /\
  getitem SeqView h' (SeqObj seq n (slice.mk a b c) (range_len a b c)) (SubInt k) =
    getitem SeqView h' seq (SubInt (a + k * c)).
Proof.
  intros Hn Hidx Ha Hb Hlen' Hk.
  destruct (slice_indices_step start stop step n a b c Hidx) as [Hc _].
  destruct (range_len_item a b c k Hc Hk) as [Hpos Hneg].
  split.
  - destruct (Z_lt_ge_dec 0 c) as [Hc' | Hc'].
    + destruct (slice_indices_positive_step start stop step n a b c Hn Hidx Hc').
      specialize (Hpos Hc'); lia.
    + assert (Hc'' : c < 0) by lia.
      destruct (slice_indices_negative_step start stop step n a b c Hn Hidx Hc'').
      specialize (Hneg Hc''); lia.
  - rewrite getitem_Seq; unfold Seq.__getitem__.
    rewrite Hlen', bind_Return, Z.eqb_refl; simpl.
    rewrite (resolve_in_range _ k Hk); reflexivity.
Qed.

(** X1: when the bounds a slice normalizes to are not negative (as with every
    positive step), [Seq.__init__] records that slice and the number of
    indices it runs through; and as long as the underlying object keeps its
    length, item [k] of the view is the item [start + k*step] of the
    underlying object, an index within [0, len_orig). *)
Theorem Seq_getitem_delegates (SeqView : option view_ctor) (h h' : heap)
    (seq : obj) (start stop step : option Z) (n a b c : Z) :
  issequence h seq = true ->
  len h seq = Return n ->
  0 <= n ->
  slice_indices start stop step n = Return (a, b, c) ->
  0 <= a -> 0 <= b ->
  len h' seq = Return n ->
  exists v,
    Seq.__init__ h seq start stop step = Return v /\
    len h' v = Return (range_len a b c) /\
    forall k,
      0 <= k < range_len a b c ->
      0 <= a + k * c < n /\
      getitem SeqView h' v (SubInt k) = getitem SeqView h' seq (SubInt (a + k * c)).
Proof.
  intros Hseq Hlen Hn Hidx Ha Hb Hlen'.
  exists (SeqObj seq n (slice.mk a b c) (range_len a b c)).
  split; [apply Seq_init_nonneg_bounds; assumption |].
  split; [reflexivity |].
  intros k Hk.
  apply (Seq_item_nonneg_bounds SeqView h' seq start stop step); assumption.
Qed.

Lemma Seq_getitem_delegates_witness :
  exists v,
    Seq.__init__ example_heap (Ref 0) (Some 8) (Some 2) (Some (-2)) = Return v /\
    len example_heap v = Return (range_len 8 2 (-2)) /\
    forall k,
      0 <= k < range_len 8 2 (-2) ->
      0 <= 8 + k * -2 < 10 /\
      getitem views_SeqView example_heap v (SubInt k) =
        getitem views_SeqView example_heap (Ref 0) (SubInt (8 + k * -2)).
Proof.
  apply (Seq_getitem_delegates views_SeqView example_heap example_heap (Ref 0)
           (Some 8) (Some 2) (Some (-2)) 10 8 2 (-2));
    try reflexivity; lia.
Defined.

Lemma list_getitem_in_range (l : list value) (i : Z) :
  0 <= i < Z.of_nat (List.length l) ->
  list_getitem l i = Return (nth (Z.to_nat i) l VNone).
Proof.
  intros Hi.
  rewrite <- (Z2Nat.id i) at 1 by lia.
  apply list_getitem_nth, nth_error_nth'; lia.
Qed.

(** X2: for a list and a slice whose normalized bounds are not negative, the
    items of [Seq(l, start, stop, step)], read while the list is unchanged,
    are the items of Python's own [l[start:stop:step]], in the same order. *)
Theorem Seq_elements_native_slice (SeqView : option view_ctor) (h h' : heap)
    (r : nat) (l : list value) (start stop step : option Z) (a b c : Z) :
  h r = PyList l ->
  h' r = PyList l ->
  slice_indices start stop step (Z.of_nat (List.length l)) = Return (a, b, c) ->
  0 <= a -> 0 <= b ->
  exists v items,
    Seq.__init__ h (Ref r) start stop step = Return v /\
    builtin_getitem (PyList l) (SubSlice start stop step) =
      Return (RNew (PyList items)) /\
    elements SeqView h' v = map (fun x => Return (RElem x)) items.
Proof.
  intros Hr Hr' Hidx Ha Hb.
  pose proof (Nat2Z.is_nonneg (List.length l)) as Hn.
  assert (Hlen : len h (Ref r) = Return (Z.of_nat (List.length l)))
    by (simpl; rewrite Hr; reflexivity).
  assert (Hlen' : len h' (Ref r) = Return (Z.of_nat (List.length l)))
    by (simpl; rewrite Hr'; reflexivity).
  assert (Hseq : issequence h (Ref r) = true)
    by (unfold issequence; simpl; rewrite Hr; reflexivity).
  exists (SeqObj (Ref r) (Z.of_nat (List.length l)) (slice.mk a b c)
            (range_len a b c)).
  exists (map (fun i => nth (Z.to_nat i) l VNone)
              (range_items a c (range_len a b c))).
  split; [apply Seq_init_nonneg_bounds; assumption |].
  split; [simpl; rewrite Hidx; reflexivity |].
  unfold elements; simpl len; cbv iota.
  unfold range_items; rewrite !map_map.
  apply map_ext_in; intros j Hj.
  apply in_seq in Hj.
  pose proof (range_len_nonneg a b c) as Hrl.
  assert (Hk : 0 <= Z.of_nat j < range_len a b c) by lia.
  destruct (Seq_item_nonneg_bounds SeqView h' (Ref r) start stop step
              _ a b c (Z.of_nat j) Hn Hidx Ha Hb Hlen' Hk) as [Hin Hget].
  replace (0 + Z.of_nat j * 1) with (Z.of_nat j) by lia.
  rewrite Hget; simpl; rewrite Hr'; simpl.
  rewrite (list_getitem_in_range l _ Hin); reflexivity.
Qed.

Lemma Seq_elements_native_slice_witness :
  exists v items,
    Seq.__init__ example_heap (Ref 0) (Some 1) (Some 8) (Some 2) = Return v /\
    builtin_getitem (PyList digits) (SubSlice (Some 1) (Some 8) (Some 2)) =
      Return (RNew (PyList items)) /\
    elements views_SeqView example_heap v =
      map (fun x => Return (RElem x)) items.
Proof.
  apply (Seq_elements_native_slice views_SeqView example_heap example_heap
           0%nat digits (Some 1) (Some 8) (Some 2) 1 8 2);
    try reflexivity; lia.
Defined.

(** ** Integer subscripts of a [Seq] *)

Lemma Seq_getitem_out_of_range (SeqView : option view_ctor) (h : heap)
    (s : obj) (lo : Z) (sl : slice.t) (n i : Z) :
  len h s = Return lo ->
  i < - n \/ n <= i ->
  getitem SeqView h (SeqObj s lo sl n) (SubInt i) =
    Raise (IndexError "index out of range").
Proof.
  intros Hlen Hi.
  rewrite getitem_Seq; unfold Seq.__getitem__.
  rewrite Hlen; simpl; rewrite Z.eqb_refl; simpl.
  unfold Seq.resolve.
  destruct (i <? 0) eqn:H0.
  - apply Z.ltb_lt in H0.
    assert (H1 : (n + i <? 0) = true) by (apply Z.ltb_lt; lia).
    rewrite H1; reflexivity.
  - apply Z.ltb_ge in H0.
    assert (H1 : (n <=? i) = true) by (apply Z.leb_le; lia).
    rewrite H1, orb_true_r; reflexivity.
Qed.

(** X3: on a [Seq] over an object of unchanged length, a subscript [i] with
    -len <= i < 0 reads the item [len + i], and a subscript below -len or not
    below len raises [IndexError]. *)
Theorem Seq_getitem_index_convention (SeqView : option view_ctor) (h : heap)
    (s : obj) (lo : Z) (sl : slice.t) (n i : Z) :
  len h s = Return lo ->
  (- n <= i < 0 ->
   getitem SeqView h (SeqObj s lo sl n) (SubInt i) =
     getitem SeqView h (SeqObj s lo sl n) (SubInt (n + i))) /\
  (i < - n \/ n <= i ->
   getitem SeqView h (SeqObj s lo sl n) (SubInt i) =
     Raise (IndexError "index out of range")).
Proof.
  intros Hlen; split; intros Hi.
  - rewrite !getitem_Seq; unfold Seq.__getitem__.
    rewrite Hlen; simpl; rewrite Z.eqb_refl; simpl.
    assert (Hres : Seq.resolve n i = Return (n + i)).
    { unfold Seq.resolve.
      assert (H0 : (i <? 0) = true) by (apply Z.ltb_lt; lia).
      assert (H1 : (n + i <? 0) = false) by (apply Z.ltb_ge; lia).
      assert (H2 : (n <=? n + i) = false) by (apply Z.leb_gt; lia).
      rewrite H0, H1, H2; reflexivity. }
    rewrite Hres, (resolve_in_range n (n + i)) by lia; reflexivity.
  - apply Seq_getitem_out_of_range; assumption.
Qed.

Lemma Seq_getitem_index_convention_witness :
  getitem views_SeqView example_heap
    (SeqObj (Ref 0) 10 (slice.mk 0 10 2) 5) (SubInt (- 1)) =
  getitem views_SeqView example_heap
    (SeqObj (Ref 0) 10 (slice.mk 0 10 2) 5) (SubInt (5 + - 1)) /\
  getitem views_SeqView example_heap
    (SeqObj (Ref 0) 10 (slice.mk 0 10 2) 5) (SubInt 5) =
  Raise (IndexError "index out of range").
Proof.
  split.
  - apply (Seq_getitem_index_convention views_SeqView example_heap (Ref 0) 10
             (slice.mk 0 10 2) 5 (- 1)); [reflexivity | lia].
  - apply (Seq_getitem_index_convention views_SeqView example_heap (Ref 0) 10
             (slice.mk 0 10 2) 5 5); [reflexivity | lia].
Defined.

(** ** A negative step with the stop left out *)

(** X4: for every sequence, every negative step and every start, a [Seq]
    built with the stop left out records the length 0: the stop normalizes to
    -1, which the second normalization reads as [len - 1].  Every integer
    subscript of such a view raises [IndexError]. *)
Theorem Seq_negative_step_open_stop (SeqView : option view_ctor) (h : heap)
    (seq : obj) (start : option Z) (step n : Z) :
  issequence h seq = true ->
  len h seq = Return n ->
  0 <= n ->
  step < 0 ->
  exists v,
    Seq.__init__ h seq start None (Some step) = Return v /\
    (forall h', len h' v = Return 0) /\
    (forall h' i,
       len h' seq = Return n ->
       getitem SeqView h' v (SubInt i) = Raise (IndexError "index out of range")).
Proof.
  intros Hseq Hlen Hn Hstep.
  destruct (slice_indices_nonzero start None (Some step) n) as [a [b [c Hidx]]];
    [intros H; injection H as ->; lia |].
  destruct (slice_indices_step start None (Some step) n a b c Hidx) as [_ ->].
  destruct (slice_indices_negative_step start None (Some step) n a b step
              Hn Hidx Hstep) as [Ha _].
  assert (Hb : b = -1).
  { unfold slice_indices in Hidx.
    assert (H0 : (step =? 0) = false) by (apply Z.eqb_neq; lia).
    assert (H1 : (step <? 0) = true) by (apply Z.ltb_lt; lia).
    rewrite H0, H1 in Hidx; injection Hidx as _ <-; reflexivity. }
  subst b.
  assert (Hlen0 : exists a',
             slice_indices (Some a) (Some (-1)) (Some step) n =
               Return (a', n - 1, step) /\ a' <= n - 1).
  { unfold slice_indices.
    assert (H0 : (step =? 0) = false) by (apply Z.eqb_neq; lia).
    assert (H1 : (step <? 0) = true) by (apply Z.ltb_lt; lia).
    rewrite H0, H1.
    exists (if a <? 0 then Z.max (a + n) (-1) else Z.min a (n - 1)).
    assert (H2 : (-1 <? 0) = true) by reflexivity.
    rewrite H2; split.
    - do 2 f_equal; f_equal; lia.
    - destruct (a <? 0) eqn:Ha0;
        [apply Z.ltb_lt in Ha0 | apply Z.ltb_ge in Ha0]; lia. }
  destruct Hlen0 as [a' [Hidx' Ha']].
  assert (Hrl : range_len a' (n - 1) step = 0).
  { unfold range_len.
    assert (H0 : (0 <? step) = false) by (apply Z.ltb_ge; lia).
    assert (H1 : (n - 1 <? a') = false) by (apply Z.ltb_ge; lia).
    rewrite H0, H1; reflexivity. }
  exists (SeqObj seq n (slice.mk a (-1) step) 0).
  split; [| split].
  - unfold Seq.__init__; rewrite Hseq, Hlen; simpl.
    rewrite Hidx; simpl.
    unfold range_getitem_slice; simpl slice.start; simpl slice.stop;
      simpl slice.step.
    rewrite Hidx'; unfold bind.
    rewrite !Z.add_0_l, !Z.mul_1_r, Z.mul_1_l, Hrl; reflexivity.
  - intros h'; reflexivity.
  - intros h' i Hlen'.
    apply (Seq_getitem_out_of_range SeqView h' seq n _ 0 i Hlen'); lia.
Qed.

Lemma Seq_negative_step_open_stop_witness :
  exists v,
    Seq.__init__ example_heap (Ref 2) (Some 1) None (Some (-1)) = Return v /\
    (forall h', len h' v = Return 0) /\
    (forall h' i,
       len h' (Ref 2) = Return 3 ->
       getitem views_SeqView h' v (SubInt i) =
         Raise (IndexError "index out of range")).
Proof.
  apply (Seq_negative_step_open_stop views_SeqView example_heap (Ref 2)
           (Some 1) (-1) 3); try reflexivity; lia.
Defined.

(** ** Construction *)

(** X5: over a sequence, [Seq.__init__] raises [ValueError] for the step 0
    and for every other step returns a view that keeps the object itself and
    its length at that time. *)
Theorem Seq_init_outcome (h : heap) (seq : obj) (start stop step : option Z)
    (n : Z) :
  issequence h seq = true ->
  len h seq = Return n ->
  (step = Some 0 ->
   Seq.__init__ h seq start stop step =
     Raise (ValueError "slice step cannot be zero")) /\
  (step <> Some 0 ->
   exists sl m, Seq.__init__ h seq start stop step = Return (SeqObj seq n sl m)).
Proof.
  intros Hseq Hlen; unfold Seq.__init__; rewrite Hseq, Hlen; simpl.
  split.
  - intros ->; reflexivity.
  - intros Hstep.
    destruct (slice_indices_nonzero start stop step n Hstep) as [a [b [c Hidx]]].
    rewrite Hidx; simpl.
    destruct (slice_indices_step start stop step n a b c Hidx) as [Hc _].
    unfold range_getitem_slice; simpl.
    destruct (slice_indices_nonzero (Some a) (Some b) (Some c) n)
      as [a' [b' [c' Hidx']]]; [intros H; injection H as ->; lia |].
    rewrite Hidx'; simpl.
    do 2 eexists; reflexivity.
Qed.

Lemma Seq_init_outcome_witness :
  Seq.__init__ example_heap (Ref 2) None None (Some 0) =
    Raise (ValueError "slice step cannot be zero") /\
  exists sl m,
    Seq.__init__ example_heap (Ref 2) None None (Some (-2)) =
      Return (SeqObj (Ref 2) 3 sl m).
Proof.
  split.
  - apply (Seq_init_outcome example_heap (Ref 2) None None (Some 0) 3);
      reflexivity.
  - apply (Seq_init_outcome example_heap (Ref 2) None None (Some (-2)) 3);
      [reflexivity | reflexivity | discriminate].
Defined.

Lemma init_loop_total (h : heap) (parts : list obj) :
  forallb (issequence h) parts = true ->
  forall acc, exists m,
    sum_len h parts = Return m /\
    SeqChain.init_loop h parts acc = Return (acc + m).
Proof.
  induction parts as [| p parts IH]; simpl; intros Hall acc.
  - exists 0; split; [reflexivity | f_equal; lia].
  - apply andb_true_iff in Hall as [Hp Hall].
    rewrite Hp; simpl.
    destruct (issequence_len h p Hp) as [n Hn]; rewrite Hn; simpl.
    destruct (IH Hall (acc + n)) as [m [Hsum Hloop]].
    rewrite Hsum, Hloop; simpl.
    exists (n + m); split; [reflexivity | f_equal; lia].
Qed.

(** X6: when every part is a sequence, [SeqChain.__init__] returns a chain
    that keeps the parts in order and records the sum of their lengths at
    that time; the chain of no parts has length 0. *)
Theorem SeqChain_init_total (h : heap) (parts : list obj) :
  forallb (issequence h) parts = true ->
  exists n,
    SeqChain.__init__ h parts = Return (ChainObj parts n) /\
    sum_len h parts = Return n /\
    (parts = [] -> n = 0).
Proof.
  intros Hall.
  destruct (init_loop_total h parts Hall 0) as [m [Hsum Hloop]].
  exists m; repeat split.
  - unfold SeqChain.__init__; rewrite Hloop; reflexivity.
  - exact Hsum.
  - intros ->; simpl in Hsum; injection Hsum as <-; reflexivity.
Qed.

Lemma SeqChain_init_total_witness :
  exists n,
    SeqChain.__init__ example_heap [Ref 1; Ref 2; Ref 3] =
      Return (ChainObj [Ref 1; Ref 2; Ref 3] n) /\
    sum_len example_heap [Ref 1; Ref 2; Ref 3] = Return n /\
    ([Ref 1; Ref 2; Ref 3] = [] -> n = 0).
Proof.
  apply (SeqChain_init_total example_heap [Ref 1; Ref 2; Ref 3]).
  reflexivity.
Defined.

(** ** Locating the part that owns an index *)

Lemma walk_position (h : heap) (index : Z) (parts : list obj) :
  forall (i : nat) (start : Z) (ret : option (nat * Z)) (m : Z),
    Forall (len_nonneg h) parts ->
    sum_len h parts = Return m ->
    start <= index < start + m ->
    exists j k p l,
      SeqChain.walk h index parts i start ret =
        Return (start + m, Some ((i + j)%nat, k)) /\
      nth_error parts j = Some p /\
      len h p = Return l /\
      0 <= k < l /\
      sum_len h (firstn j parts) = Return (index - start - k).
Proof.
  induction parts as [| p parts IH]; simpl; intros i start ret m Hnn Hsum Hin.
  - injection Hsum as <-; lia.
  - inversion Hnn as [| p' parts' Hp Hparts]; subst.
    destruct (len h p) as [n | e] eqn:Hlen; simpl in *; [| discriminate Hsum].
    destruct (sum_len h parts) as [m' | e] eqn:Hrest; simpl in *;
      [| discriminate Hsum].
    injection Hsum as <-.
    pose proof (Hp n Hlen) as Hn.
    destruct (Z_lt_ge_dec index (start + n)) as [Hlt | Hge].
    + assert (Hc : (start <=? index) && (index <? start + n) = true).
      { apply andb_true_iff; split; [apply Z.leb_le | apply Z.ltb_lt]; lia. }
      rewrite Hc.
      destruct (walk_past h index parts (S i) (start + n)
                  (Some (i, index - start)) m' Hparts Hrest Hlt) as [_ Hw].
      exists 0%nat, (index - start), p, n; repeat split; try lia.
      * rewrite Hw, Nat.add_0_r; f_equal; f_equal; lia.
      * exact Hlen.
      * simpl; f_equal; lia.
    + assert (Hc : (start <=? index) && (index <? start + n) = false).
      { apply andb_false_iff; right; apply Z.ltb_ge; lia. }
      rewrite Hc.
      destruct (IH (S i) (start + n) ret m' Hparts eq_refl)
        as [j [k [q [l [Hw [Hnth [Hq [Hk Hpre]]]]]]]]; [lia |].
      exists (S j), k, q, l; repeat split; try lia; try assumption.
      * rewrite Hw; f_equal; f_equal; [lia | f_equal; f_equal; lia].
      * simpl; rewrite Hlen, Hpre; simpl; f_equal; lia.
Qed.

(** X7: when the parts' lengths sum to the recorded length, [_find_position]
    returns, for every index within [0, length), a part number [j] and an
    offset [k] within that part such that the lengths of the parts before
    [j] sum to [index - k]: the local [ret] is always bound when it is
    returned. *)
Theorem find_position_owner (h : heap) (parts : list obj) (n index : Z) :
  Forall (len_nonneg h) parts ->
  sum_len h parts = Return n ->
  0 <= index < n ->
  exists j k p l,
    SeqChain._find_position h parts n index = Return (Some (j, k)) /\
    nth_error parts j = Some p /\
    len h p = Return l /\
    0 <= k < l /\
    sum_len h (firstn j parts) = Return (index - k).
Proof.
  intros Hnn Hsum Hi.
  destruct (walk_position h index parts 0%nat 0 None n Hnn Hsum)
    as [j [k [p [l [Hw [Hnth [Hp [Hk Hpre]]]]]]]]; [lia |].
  exists j, k, p, l; repeat split; try lia; try assumption.
  - unfold SeqChain._find_position.
    assert (Hb : (index <? 0) || (n <=? index) = false).
    { apply orb_false_iff; split; [apply Z.ltb_ge | apply Z.leb_gt]; lia. }
    rewrite Hb, Hw; simpl; rewrite Z.eqb_refl; reflexivity.
  - rewrite Hpre; f_equal; lia.
Qed.

Lemma find_position_owner_witness :
  exists j k p l,
    SeqChain._find_position example_heap [Ref 3; Ref 2; Ref 4] 8 6 =
      Return (Some (j, k)) /\
    nth_error [Ref 3; Ref 2; Ref 4] j = Some p /\
    len example_heap p = Return l /\
    0 <= k < l /\
    sum_len example_heap (firstn j [Ref 3; Ref 2; Ref 4]) = Return (6 - k).
Proof.
  apply (find_position_owner example_heap [Ref 3; Ref 2; Ref 4] 8 6).
  - repeat constructor; intros n Hn; injection Hn as <-; simpl; lia.
  - reflexivity.
  - lia.
Defined.

(** ** Slicing a [SeqChain] *)

(** X8: for a chain and a slice whose bounds, normalized against the chain's
    recorded length, are not negative, the slice access returns a [Seq] over
    the chain with as many items as the slice has indices, and on every later
    heap item [k] of that view is item [start + k*step] of the chain: the
    view's own length check never fires, a chain answering [len] with its
    recorded length. *)
Theorem SeqChain_getitem_slice (SeqView : option view_ctor) (h : heap)
    (parts : list obj) (n : Z) (start stop step : option Z) (a b c : Z) :
  0 <= n ->
  slice_indices start stop step n = Return (a, b, c) ->
  0 <= a -> 0 <= b ->
  exists v,
    getitem SeqView h (ChainObj parts n) (SubSlice start stop step) =
      Return (RView v) /\
    (forall h', len h' v = Return (range_len a b c)) /\
    forall h' k,
      0 <= k < range_len a b c ->
      getitem SeqView h' v (SubInt k) =
        getitem SeqView h' (ChainObj parts n) (SubInt (a + k * c)).
Proof.
  intros Hn Hidx Ha Hb.
  exists (SeqObj (ChainObj parts n) n (slice.mk a b c) (range_len a b c)).
  split; [| split].
  - rewrite getitem_Chain; unfold SeqChain.__getitem__.
    rewrite (Seq_init_nonneg_bounds h (ChainObj parts n) start stop step n a b c);
      try assumption; reflexivity.
  - intros h'; reflexivity.
  - intros h' k Hk.
    apply (Seq_item_nonneg_bounds SeqView h' (ChainObj parts n) start stop step);
      try assumption; reflexivity.
Qed.

Lemma SeqChain_getitem_slice_witness :
  exists v,
    getitem views_SeqView example_heap (ChainObj [Ref 1; Ref 2] 6)
      (SubSlice (Some (-2)) (Some 0) (Some (-3))) = Return (RView v) /\
    (forall h', len h' v = Return (range_len 4 0 (-3))) /\
    forall h' k,
      0 <= k < range_len 4 0 (-3) ->
      getitem views_SeqView h' v (SubInt k) =
        getitem views_SeqView h' (ChainObj [Ref 1; Ref 2] 6)
          (SubInt (4 + k * -3)).
Proof.
  apply (SeqChain_getitem_slice views_SeqView example_heap [Ref 1; Ref 2] 6
           (Some (-2)) (Some 0) (Some (-3)) 4 0 (-3));
    try reflexivity; lia.
Defined.

(** X9: for a chain and an index [i] within [0, length), the slice access
    [i:i+1] returns a view of one item, and that item is item [i] of the
    chain. *)
Theorem SeqChain_index_slice_consistent (SeqView : option view_ctor) (h : heap)
    (parts : list obj) (n i : Z) :
  0 <= i < n ->
  exists v,
    getitem SeqView h (ChainObj parts n)
      (SubSlice (Some i) (Some (i + 1)) (Some 1)) = Return (RView v) /\
    len h v = Return 1 /\
    getitem SeqView h v (SubInt 0) = getitem SeqView h (ChainObj parts n) (SubInt i).
Proof.
  intros Hi.
  assert (Hidx : slice_indices (Some i) (Some (i + 1)) (Some 1) n =
                   Return (i, i + 1, 1)).
  { apply slice_indices_fixed_positive_step; lia. }
  assert (Hrl : range_len i (i + 1) 1 = 1).
  { unfold range_len; simpl.
    assert (H0 : (i <? i + 1) = true) by (apply Z.ltb_lt; lia).
    rewrite H0.
    replace (i + 1 - i - 1) with 0 by lia; reflexivity. }
  exists (SeqObj (ChainObj parts n) n (slice.mk i (i + 1) 1) 1).
  split; [| split].
  - rewrite getitem_Chain; unfold SeqChain.__getitem__.
    rewrite (Seq_init_nonneg_bounds h (ChainObj parts n) (Some i) (Some (i + 1))
               (Some 1) n i (i + 1) 1); try reflexivity; try lia; try exact Hidx.
    rewrite Hrl; reflexivity.
  - reflexivity.
  - destruct (Seq_item_nonneg_bounds SeqView h (ChainObj parts n) (Some i)
                (Some (i + 1)) (Some 1) n i (i + 1) 1 0) as [_ Hget];
      try reflexivity; try lia; try exact Hidx.
    rewrite Hrl in Hget; rewrite Hget.
    do 2 f_equal; lia.
Qed.

Lemma SeqChain_index_slice_consistent_witness :
  exists v,
    getitem views_SeqView example_heap (ChainObj [Ref 1; Ref 2] 6)
      (SubSlice (Some 4) (Some (4 + 1)) (Some 1)) = Return (RView v) /\
    len example_heap v = Return 1 /\
    getitem views_SeqView example_heap v (SubInt 0) =
      getitem views_SeqView example_heap (ChainObj [Ref 1; Ref 2] 6) (SubInt 4).
Proof.
  apply (SeqChain_index_slice_consistent views_SeqView example_heap
           [Ref 1; Ref 2] 6 4).
  lia.
Defined.

(** * The comprehension syntax *)

(** ** [gen[...]] *)




Lemma gen_parts_rejects (h : heap) (a : arg) (post : list arg) (r : raised) :
  (forall pending, gen.parts h (a :: post) pending = Fail r) ->
  forall pre,
    forallb (gen_accepts h) pre = true ->
    forall pending, gen.parts h (pre ++ a :: post) pending = Fail r.
Proof.
  intros Ha pre; induction pre as [| b pre IH]; simpl; intros Hall pending.
  - apply Ha.
  - apply andb_true_iff in Hall as [Hb Hall].
    destruct b as [v | start stop o]; simpl in *.
    + apply IH; exact Hall.
    + destruct start; [discriminate Hb |].
      destruct stop; [discriminate Hb |].
      rewrite Hb; simpl.
      rewrite (IH Hall []); reflexivity.
Qed.

(** X11: [gen[...]] fails on the first argument it does not accept, whatever
    follows it: with [TypeError] naming the type when a slice [::obj] embeds
    an object without [__iter__], the two views among them, and with
    [SyntaxError] when the slice has a start or a stop. *)
Theorem gen_getitem_rejects (h : heap) (pre post : list arg)
    (start stop : option value) (o : obj) :
  forallb (gen_accepts h) pre = true ->
  gen_accepts h (ArgSlice start stop o) = false ->
  gen.__getitem__ h (pre ++ ArgSlice start stop o :: post) =
    match start, stop with
    | None, None =>
        Fail (Exn (TypeError ("'" ++ type_name h o
                                ++ "' object is not iterable and cannot be chained")))
    | _, _ => Fail (SyntaxError "invalid syntax in generator comprehension")
    end.
Proof.
  intros Hpre Ha; unfold gen.__getitem__.
  destruct start as [s |];
    [apply gen_parts_rejects; [intros pending; reflexivity | exact Hpre] |].
  destruct stop as [s |];
    [apply gen_parts_rejects; [intros pending; reflexivity | exact Hpre] |].
  apply gen_parts_rejects; [| exact Hpre].
  intros pending; simpl in *; rewrite Ha; reflexivity.
Qed.

Lemma gen_getitem_rejects_witness :
  gen.__getitem__ example_heap
    ([ArgObj (VInt 3); ArgSlice None None (Ref 1)]
       ++ ArgSlice None None (SeqObj (Ref 1) 3 (slice.mk 0 3 1) 3)
       :: [ArgSlice (Some (VInt 1)) None (Ref 1)]) =
    Fail (Exn (TypeError "'Seq' object is not iterable and cannot be chained")).
Proof.
  apply (gen_getitem_rejects example_heap
           [ArgObj (VInt 3); ArgSlice None None (Ref 1)]
           [ArgSlice (Some (VInt 1)) None (Ref 1)]
           None None (SeqObj (Ref 1) 3 (slice.mk 0 3 1) 3));
    reflexivity.
Defined.

(** ** [seq[...]] *)

Lemma alloc_eq (h : heap) (r : nat) (o : pyobj) : alloc h r o r = o.
Proof. unfold alloc; rewrite Nat.eqb_refl; reflexivity. Qed.

Lemma alloc_neq (h : heap) (r r' : nat) (o : pyobj) :
  r' <> r -> alloc h r o r' = h r'.
Proof.
  intros Hne; unfold alloc.
  destruct (Nat.eqb r' r) eqn:He; [apply Nat.eqb_eq in He; contradiction |].
  reflexivity.
Qed.

Lemma issequence_alloc (h : heap) (a : nat) (l : list value) (o : obj) :
  issequence h o = true -> issequence (alloc h a (PyList l)) o = true.
Proof.
  destruct o as [r | |]; try (intros _; reflexivity).
  unfold issequence; simpl; unfold alloc.
  destruct (Nat.eqb r a); [intros _; reflexivity | auto].
Qed.

Lemma seq_accepts_alloc (h : heap) (a : nat) (l : list value) (args : list arg) :
  forallb (seq_accepts h) args = true ->
  forallb (seq_accepts (alloc h a (PyList l))) args = true.
Proof.
  induction args as [| x args IH]; simpl; [reflexivity |].
  intros Hall; apply andb_true_iff in Hall as [Hx Hall].
  rewrite (IH Hall), andb_true_r.
  destruct x as [v | [s |] [t |] o]; simpl in *; try assumption.
  apply issequence_alloc; exact Hx.
Qed.

Lemma len_nonneg_heap (h h' : heap) (o : obj) :
  len_nonneg h o -> len_nonneg h' o.
Proof.
  destruct o as [r | s lo sl n | ps n]; intros Hnn.
  - apply len_nonneg_Ref.
  - exact Hnn.
  - exact Hnn.
Qed.

(** The generator only adds lists, at addresses from [next] on. *)
Lemma seq_parts_heap (args : list arg) :
  forall h next part ps h' next',
    seq.parts h next args part = Done (ps, h', next') ->
    (next <= next')%nat /\
    (forall r, (r < next)%nat -> h' r = h r) /\
    (forall o, issequence h o = true -> issequence h' o = true).
Proof.
  induction args as [| a args IH]; simpl; intros h next part ps h' next' Hp.
  - destruct part as [| v part]; injection Hp as <- <- <-.
    + repeat split; auto.
    + repeat split; [lia | |].
      * intros r Hr; apply alloc_neq; lia.
      * intros o; apply issequence_alloc.
  - destruct a as [v | [s |] [t |] o]; try discriminate Hp.
    + apply (IH _ _ _ _ _ _ Hp).
    + destruct (negb (issequence h o)); [discriminate Hp |].
      destruct part as [| v part].
      * destruct (seq.parts h next args []) as [[[ps0 h0] n0] | r] eqn:Hrec;
          [| discriminate Hp].
        injection Hp as <- <- <-.
        apply (IH _ _ _ _ _ _ Hrec).
      * destruct (seq.parts (alloc h next (PyList (v :: part))) (S next) args [])
          as [[[ps0 h0] n0] | r] eqn:Hrec; [| discriminate Hp].
        injection Hp as <- <- <-.
        destruct (IH _ _ _ _ _ _ Hrec) as [Hle [Hframe Hseq]].
        repeat split; [lia | |].
        -- intros r Hr; rewrite Hframe by lia; apply alloc_neq; lia.
        -- intros o' Ho'; apply Hseq, issequence_alloc; exact Ho'.
Qed.

Lemma seq_parts_len_nonneg (args : list arg) :
  forall h next part ps h' next',
    Forall (arg_len_nonneg h) args ->
    seq.parts h next args part = Done (ps, h', next') ->
    Forall (len_nonneg h') ps.
Proof.
  induction args as [| a args IH]; simpl; intros h next part ps h' next' Hnn Hp.
  - destruct part as [| v part]; injection Hp as <- <- <-.
    + constructor.
    + constructor; [apply len_nonneg_Ref | constructor].
  - inversion Hnn as [| a' args' Ha Hargs]; subst.
    assert (Hargs' : forall h1, Forall (arg_len_nonneg h1) args).
    { intros h1; apply (Forall_impl _ (P := arg_len_nonneg h)); [| exact Hargs].
      intros [v | s t o]; simpl; [auto | apply len_nonneg_heap]. }
    destruct a as [v | [s |] [t |] o]; try discriminate Hp.
    + apply (IH _ _ _ _ _ _ Hargs Hp).
    + simpl in Ha.
      destruct (negb (issequence h o)); [discriminate Hp |].
      destruct part as [| v part].
      * destruct (seq.parts h next args []) as [[[ps0 h0] n0] | r] eqn:Hrec;
          [| discriminate Hp].
        injection Hp as <- <- <-.
        constructor; [apply (len_nonneg_heap h); exact Ha |].
        apply (IH _ _ _ _ _ _ Hargs Hrec).
      * destruct (seq.parts (alloc h next (PyList (v :: part))) (S next) args [])
          as [[[ps0 h0] n0] | r] eqn:Hrec; [| discriminate Hp].
        injection Hp as <- <- <-.
        constructor; [apply len_nonneg_Ref |].
        constructor; [apply (len_nonneg_heap h); exact Ha |].
        apply (IH _ _ _ _ _ _ (Hargs' _) Hrec).
Qed.

Lemma seq_parts_flatten (SeqView : option view_ctor) (args : list arg) :
  forall h next part,
    forallb (seq_accepts h) args = true ->
    exists ps h' next',
      seq.parts h next args part = Done (ps, h', next') /\
      flatten SeqView h' ps =
        (map (fun v => Return (RElem v)) part ++ seq_expand SeqView h' args)%list /\
      forallb (issequence h') ps = true.
Proof.
  induction args as [| a args IH]; simpl; intros h next part Hall.
  - destruct part as [| v part].
    + exists [], h, next; repeat split.
    + exists [Ref next], (alloc h next (PyList (v :: part))), (S next).
      split; [reflexivity |]; split.
      * unfold flatten; simpl.
        rewrite (elements_list SeqView _ next (v :: part)) by apply alloc_eq.
        reflexivity.
      * unfold issequence; simpl; rewrite alloc_eq; reflexivity.
  - apply andb_true_iff in Hall as [Ha Hall].
    destruct a as [v | [s |] [t |] o]; simpl in Ha; try discriminate Ha.
    + destruct (IH h next (part ++ [v])%list Hall) as [ps [h' [next' [Hp [Hfl Hsq]]]]].
      exists ps, h', next'; split; [exact Hp |]; split; [| exact Hsq].
      rewrite Hfl, map_app, <- app_assoc; reflexivity.
    + rewrite Ha; simpl.
      destruct part as [| v part].
      * destruct (IH h next [] Hall) as [ps [h' [next' [Hp [Hfl Hsq]]]]].
        rewrite Hp.
        exists (o :: ps), h', next'; split; [reflexivity |]; split.
        -- unfold flatten in *; simpl; rewrite Hfl; reflexivity.
        -- simpl; rewrite Hsq, andb_true_r.
           destruct (seq_parts_heap _ _ _ _ _ _ _ Hp) as [_ [_ Hseq]].
           apply Hseq; exact Ha.
      * destruct (IH (alloc h next (PyList (v :: part))) (S next) []
                    (seq_accepts_alloc h next (v :: part) args Hall))
          as [ps [h' [next' [Hp [Hfl Hsq]]]]].
        rewrite Hp.
        destruct (seq_parts_heap _ _ _ _ _ _ _ Hp) as [_ [Hframe Hseq]].
        assert (Hnext : h' next = PyList (v :: part)).
        { rewrite Hframe by lia; apply alloc_eq. }
        exists (Ref next :: o :: ps), h', next'; split; [reflexivity |]; split.
        -- unfold flatten in *; simpl flat_map; rewrite Hfl.
           rewrite (elements_list SeqView h' next (v :: part) Hnext).
           reflexivity.
        -- simpl; rewrite Hsq, andb_true_r.
           apply andb_true_iff; split.
           ++ unfold issequence; simpl; rewrite Hnext; reflexivity.
           ++ apply Hseq, issequence_alloc; exact Ha.
Qed.

(** Item [i] of a chain whose parts' lengths sum to the recorded length. *)
Lemma chain_getitem_nth (SeqView : option view_ctor) (h : heap)
    (parts : list obj) (n i : Z) :
  Forall (len_nonneg h) parts ->
  sum_len h parts = Return n ->
  0 <= i < n ->
  getitem SeqView h (ChainObj parts n) (SubInt i) =
    nth (Z.to_nat i) (flatten SeqView h parts)
        (Raise (IndexError "list index out of range")).
Proof.
  intros Hnn Hsum Hi.
  rewrite getitem_Chain; unfold SeqChain.__getitem__, SeqChain._find_position.
  assert (Hb : (i <? 0) || (n <=? i) = false).
  { apply orb_false_iff; split; [apply Z.ltb_ge | apply Z.leb_gt]; lia. }
  rewrite Hb.
  destruct (walk_owner SeqView h i (Raise (IndexError "list index out of range"))
              parts 0%nat 0 None n Hnn Hsum) as [j [k [Hw Hget]]]; [lia |].
  rewrite Hw; simpl; rewrite Z.eqb_refl; simpl.
  rewrite Hget, Z.sub_0_r; reflexivity.
Qed.

(** X12: when every argument of [seq[...]] is a plain object or a slice
    [::obj] with [obj] a sequence, the subscript returns a chain whose
    length is the number of plain objects plus the lengths of the embedded
    objects, and whose item [i] is the item [i] of the arguments laid end to
    end, plain objects as themselves and embedded objects item by item. *)
Theorem seq_getitem_items (SeqView : option view_ctor) (h : heap) (next : nat)
    (args : list arg) :
  forallb (seq_accepts h) args = true ->
  Forall (arg_len_nonneg h) args ->
  exists ps n h' next',
    seq.__getitem__ h next args = Done (ChainObj ps n, h', next') /\
    n = Z.of_nat (List.length (seq_expand SeqView h' args)) /\
    forall i,
      0 <= i < n ->
      getitem SeqView h' (ChainObj ps n) (SubInt i) =
        nth (Z.to_nat i) (seq_expand SeqView h' args)
            (Raise (IndexError "list index out of range")).
Proof.
  intros Hall Hnn.
  destruct (seq_parts_flatten SeqView args h next [] Hall)
    as [ps [h' [next' [Hp [Hfl Hsq]]]]].
  simpl in Hfl.
  pose proof (seq_parts_len_nonneg _ _ _ _ _ _ _ Hnn Hp) as Hps.
  destruct (init_loop_total h' ps Hsq 0) as [n [Hsum Hloop]].
  exists ps, n, h', next'.
  split; [| split].
  - unfold seq.__getitem__, SeqChain.__init__; rewrite Hp, Hloop; reflexivity.
  - rewrite <- Hfl; symmetry; apply length_flatten; assumption.
  - intros i Hi; rewrite <- Hfl.
    apply chain_getitem_nth; assumption.
Qed.

Lemma seq_getitem_items_witness :
  exists ps n h' next',
    seq.__getitem__ example_heap 7
      [ArgSlice None None (Ref 1); ArgObj VNone; ArgSlice None None (Ref 2);
       ArgObj (VStr "Hi!")] = Done (ChainObj ps n, h', next') /\
    n = Z.of_nat (List.length
          (seq_expand views_SeqView h'
             [ArgSlice None None (Ref 1); ArgObj VNone;
              ArgSlice None None (Ref 2); ArgObj (VStr "Hi!")])) /\
    forall i,
      0 <= i < n ->
      getitem views_SeqView h' (ChainObj ps n) (SubInt i) =
        nth (Z.to_nat i)
            (seq_expand views_SeqView h'
               [ArgSlice None None (Ref 1); ArgObj VNone;
                ArgSlice None None (Ref 2); ArgObj (VStr "Hi!")])
            (Raise (IndexError "list index out of range")).
Proof.
  apply (seq_getitem_items views_SeqView example_heap 7
           [ArgSlice None None (Ref 1); ArgObj VNone;
            ArgSlice None None (Ref 2); ArgObj (VStr "Hi!")]).
  - reflexivity.
  - repeat constructor; apply len_nonneg_Ref.
Defined.

Lemma seq_parts_embeds (args : list arg) :
  forall h next part ps h' next',
    seq.parts h next args part = Done (ps, h', next') ->
    forall s t o, In (ArgSlice s t o) args -> In o ps.
Proof.
  induction args as [| a args IH]; simpl; intros h next part ps h' next' Hp s t o Hin.
  - contradiction.
  - destruct a as [v | [s' |] [t' |] o']; try discriminate Hp.
    + destruct Hin as [Heq | Hin]; [discriminate Heq |].
      apply (IH _ _ _ _ _ _ Hp s t o Hin).
    + destruct (negb (issequence h o')); [discriminate Hp |].
      destruct part as [| v part].
      * destruct (seq.parts h next args []) as [[[ps0 h0] n0] | r] eqn:Hrec;
          [| discriminate Hp].
        injection Hp as <- <- <-.
        destruct Hin as [Heq | Hin].
        -- injection Heq as _ _ ->; left; reflexivity.
        -- right; apply (IH _ _ _ _ _ _ Hrec s t o Hin).
      * destruct (seq.parts (alloc h next (PyList (v :: part))) (S next) args [])
          as [[[ps0 h0] n0] | r] eqn:Hrec; [| discriminate Hp].
        injection Hp as <- <- <-.
        destruct Hin as [Heq | Hin].
        -- injection Heq as _ _ ->; right; left; reflexivity.
        -- right; right; apply (IH _ _ _ _ _ _ Hrec s t o Hin).
Qed.

(** X13: a successful [seq[...]] leaves every object that existed before as
    it was, takes addresses only from [next] on, and has each embedded
    object itself, not a copy, among the parts of the chain. *)
Theorem seq_getitem_frame (h : heap) (next : nat) (args : list arg)
    (ps : list obj) (n : Z) (h' : heap) (next' : nat) :
  seq.__getitem__ h next args = Done (ChainObj ps n, h', next') ->
  (next <= next')%nat /\
  (forall r, (r < next)%nat -> h' r = h r) /\
  (forall s t o, In (ArgSlice s t o) args -> In o ps).
Proof.
  unfold seq.__getitem__.
  destruct (seq.parts h next args []) as [[[ps0 h0] n0] | r] eqn:Hp;
    [| discriminate].
  unfold SeqChain.__init__.
  destruct (SeqChain.init_loop h0 ps0 0) as [m | e]; simpl; [| discriminate].
  intros H; injection H as <- <- <- <-.
  destruct (seq_parts_heap _ _ _ _ _ _ _ Hp) as [Hle [Hframe _]].
  repeat split; try assumption.
  apply (seq_parts_embeds _ _ _ _ _ _ _ Hp).
Qed.

Lemma seq_getitem_frame_witness :
  (7 <= 9)%nat /\
  (forall r, (r < 7)%nat ->
     alloc (alloc example_heap 7 (PyList [VNone])) 8 (PyList [VStr "Hi!"]) r =
     example_heap r) /\
  (forall s t o,
     In (ArgSlice s t o)
        [ArgSlice None None (Ref 1); ArgObj VNone; ArgSlice None None (Ref 2);
         ArgObj (VStr "Hi!")] ->
     In o [Ref 1; Ref 7; Ref 2; Ref 8]).
Proof.
  apply (seq_getitem_frame example_heap 7
           [ArgSlice None None (Ref 1); ArgObj VNone; ArgSlice None None (Ref 2);
            ArgObj (VStr "Hi!")]
           [Ref 1; Ref 7; Ref 2; Ref 8] 8
           (alloc (alloc example_heap 7 (PyList [VNone])) 8 (PyList [VStr "Hi!"]))
           9%nat).
  reflexivity.
Defined.

Lemma seq_parts_rejects_syntax (start stop : option value) (o : obj)
    (post pre : list arg) :
  start <> None \/ stop <> None ->
  forall h next part,
    forallb (seq_accepts h) pre = true ->
    seq.parts h next (pre ++ ArgSlice start stop o :: post) part =
      Fail (SyntaxError "Invalid syntax in chain generator expression").
Proof.
  intros Hbound; induction pre as [| b pre IH]; simpl; intros h next part Hall.
  - destruct start as [s |]; [reflexivity |].
    destruct stop as [t |]; [reflexivity |].
    destruct Hbound as [H | H]; contradiction H; reflexivity.
  - apply andb_true_iff in Hall as [Hb Hall].
    destruct b as [v | [s |] [t |] o']; simpl in Hb; try discriminate Hb.
    + apply IH; exact Hall.
    + rewrite Hb; simpl.
      destruct part as [| v part].
      * rewrite (IH h next [] Hall); reflexivity.
      * rewrite (IH _ (S next) [] (seq_accepts_alloc h next (v :: part) pre Hall)).
        reflexivity.
Qed.

Lemma seq_parts_rejects_type (r : nat) (post pre : list arg) :
  forall h next part,
    forallb (seq_accepts h) pre = true ->
    (r < next)%nat ->
    issequence h (Ref r) = false ->
    seq.parts h next (pre ++ ArgSlice None None (Ref r) :: post) part =
      Fail (Exn (TypeError ("'" ++ type_name h (Ref r)
                              ++ "' object is not a sequence and cannot be chained"))).
Proof.
  induction pre as [| b pre IH]; simpl; intros h next part Hall Hr Hns.
  - unfold issequence in Hns; simpl in Hns.
    unfold issequence; simpl; rewrite Hns; reflexivity.
  - apply andb_true_iff in Hall as [Hb Hall].
    destruct b as [v | [s |] [t |] o']; simpl in Hb; try discriminate Hb.
    + apply IH; assumption.
    + rewrite Hb; simpl.
      destruct part as [| v part].
      * rewrite (IH h next [] Hall Hr Hns); reflexivity.
      * rewrite (IH (alloc h next (PyList (v :: part))) (S next) []).
        -- simpl; rewrite alloc_neq by lia; reflexivity.
        -- apply seq_accepts_alloc; exact Hall.
        -- lia.
        -- unfold issequence in *; simpl in *; rewrite alloc_neq by lia; exact Hns.
Qed.

(** X14: [seq[...]] fails on the first argument it does not accept, whatever
    follows it: with [TypeError] naming the type when a slice [::obj] embeds
    an existing object that is not a sequence, and with [SyntaxError] when
    the slice has a start or a stop. *)
Theorem seq_getitem_rejects (h : heap) (next : nat) (pre post : list arg)
    (start stop : option value) (o : obj) :
  forallb (seq_accepts h) pre = true ->
  seq_accepts h (ArgSlice start stop o) = false ->
  (forall r, o = Ref r -> (r < next)%nat) ->
  seq.__getitem__ h next (pre ++ ArgSlice start stop o :: post) =
    match start, stop with
    | None, None =>
        Fail (Exn (TypeError ("'" ++ type_name h o
                                ++ "' object is not a sequence and cannot be chained")))
    | _, _ => Fail (SyntaxError "Invalid syntax in chain generator expression")
    end.
Proof.
  intros Hpre Ha Hbelow; unfold seq.__getitem__.
  destruct start as [s |].
  { rewrite seq_parts_rejects_syntax; [reflexivity | left; discriminate | exact Hpre]. }
  destruct stop as [t |].
  { rewrite seq_parts_rejects_syntax; [reflexivity | right; discriminate | exact Hpre]. }
  simpl in Ha.
  destruct o as [r | s lo sl n | ps n]; try discriminate Ha.
  rewrite seq_parts_rejects_type; auto.
Qed.

Lemma seq_getitem_rejects_witness :
  seq.__getitem__ example_heap 7
    ([ArgObj (VInt 3); ArgSlice None None (Ref 1); ArgObj (VInt 4)]
       ++ ArgSlice None None (Ref 6) :: [ArgSlice (Some (VInt 1)) None (Ref 1)]) =
    Fail (Exn (TypeError "'set' object is not a sequence and cannot be chained")).
Proof.
  apply (seq_getitem_rejects example_heap 7
           [ArgObj (VInt 3); ArgSlice None None (Ref 1); ArgObj (VInt 4)]
           [ArgSlice (Some (VInt 1)) None (Ref 1)] None None (Ref 6)).
  - reflexivity.
  - reflexivity.
  - intros r Hr; injection Hr as <-; lia.
Defined.

(** * Display *)

Lemma chain_getitem_out_of_bounds (SeqView : option view_ctor) (h : heap)
    (parts : list obj) (n i : Z) :
  i < 0 \/ n <= i ->
  getitem SeqView h (ChainObj parts n) (SubInt i) =
    Raise (IndexError "sequence index out of bounds").
Proof.
  intros Hi.
  rewrite getitem_Chain; unfold SeqChain.__getitem__, SeqChain._find_position.
  assert (Hb : (i <? 0) || (n <=? i) = true).
  { apply orb_true_iff; destruct Hi as [Hi | Hi];
      [left; apply Z.ltb_lt | right; apply Z.leb_le]; exact Hi. }
  rewrite Hb; reflexivity.
Qed.

(** A view whose own length check passes raises [IndexError] at its recorded
    length. *)
Lemma view_stops (SeqView : option view_ctor) (h : heap) (o : obj) (n : Z) :
  unchanged h o ->
  len h o = Return n ->
  exists msg, getitem SeqView h o (SubInt n) = Raise (IndexError msg).
Proof.
  destruct o as [r | s lo sl m | ps m]; simpl; intros Hun Hlen.
  - contradiction.
  - injection Hlen as ->; eexists.
    apply Seq_getitem_out_of_range; [exact Hun | lia].
  - injection Hlen as ->; eexists.
    apply chain_getitem_out_of_bounds; lia.
Qed.

(** The iteration reads the items up to the first [IndexError]. *)
Lemma iterate_items (SeqView : option view_ctor) (h : heap) (o : obj)
    (msg : string) :
  forall (vs : list value) (k : Z) (fuel : nat),
    (List.length vs < fuel)%nat ->
    (forall j, (j < List.length vs)%nat ->
       getitem SeqView h o (SubInt (k + Z.of_nat j)) =
         Return (RElem (nth j vs VNone))) ->
    getitem SeqView h o (SubInt (k + Z.of_nat (List.length vs))) =
      Raise (IndexError msg) ->
    iterate SeqView h o k fuel = Some (Return vs).
Proof.
  induction vs as [| v vs IH]; simpl; intros k fuel Hfuel Hitems Hstop.
  - destruct fuel as [| fuel]; [lia |].
    simpl; rewrite Z.add_0_r in Hstop; rewrite Hstop; reflexivity.
  - destruct fuel as [| fuel]; [lia |].
    simpl.
    pose proof (Hitems 0%nat ltac:(lia)) as H0.
    simpl in H0; rewrite Z.add_0_r in H0; rewrite H0.
    rewrite (IH (k + 1) fuel); [reflexivity | lia | |].
    + intros j Hj.
      pose proof (Hitems (S j) ltac:(lia)) as HS.
      simpl nth in HS; rewrite <- HS; do 2 f_equal; lia.
    + rewrite <- Hstop; do 2 f_equal; lia.
Qed.

(** Unpacking a view all of whose items can be read yields these items. *)
Lemma unpack_elements (SeqView : option view_ctor) (h : heap) (o : obj) (n : Z)
    (vs : list value) :
  unchanged h o ->
  len h o = Return n ->
  0 <= n ->
  elements SeqView h o = map (fun v => Return (RElem v)) vs ->
  unpack SeqView h o = Some (Return vs).
Proof.
  intros Hun Hlen Hn Hel.
  destruct (view_stops SeqView h o n Hun Hlen) as [msg Hstop].
  assert (Hlength : List.length vs = Z.to_nat n).
  { rewrite <- (length_elements SeqView h o n Hlen), Hel, length_map.
    reflexivity. }
  assert (Hit : iterate SeqView h o 0 (S (Z.to_nat n)) = Some (Return vs)).
  { apply (iterate_items SeqView h o msg); [lia | |].
    - intros j Hj.
      rewrite <- (nth_elements SeqView h o n (0 + Z.of_nat j)
                    (Raise (IndexError "list index out of range")) Hlen)
        by lia.
      rewrite Hel.
      replace (Z.to_nat (0 + Z.of_nat j)) with j by lia.
      rewrite (nth_indep _ _ (Return (RElem VNone)))
        by (rewrite length_map; exact Hj).
      apply (map_nth (fun v => Return (RElem v))).
    - rewrite Hlength, Z2Nat.id by lia; exact Hstop. }
  destruct o as [r | s lo sl m | ps m]; simpl in *.
  - contradiction.
  - injection Hlen as ->; exact Hit.
  - injection Hlen as ->; exact Hit.
Qed.

(** X15: a view of at most [REPR_ITEMS] = 10 items whose own length check
    passes and whose items can all be read is displayed as
    [<sequence view n: [...] >] with its length and all its items in order. *)
Theorem repr_short (repr_item : value -> string) (SeqView : option view_ctor)
    (h : heap) (self : obj) (n : Z) (vs : list value) :
  unchanged h self ->
  len h self = Return n ->
  0 <= n <= 10 ->
  elements SeqView h self = map (fun v => Return (RElem v)) vs ->
  SeqMixin.__repr__ repr_item SeqView h self =
    Some (Return (SeqMixin.template n
                    (SeqMixin.repr_list repr_item (map SeqMixin.Item vs)))).
Proof.
  intros Hun Hlen Hn Hel.
  unfold SeqMixin.__repr__; rewrite Hlen.
  assert (Hshort : (n <=? SeqMixin.REPR_ITEMS) = true)
    by (apply Z.leb_le; unfold SeqMixin.REPR_ITEMS; lia).
  rewrite Hshort.
  rewrite (unpack_elements SeqView h self n vs Hun Hlen) by (lia || exact Hel).
  reflexivity.
Qed.

Lemma repr_short_witness :
  SeqMixin.__repr__ example_repr views_SeqView example_heap
    (ChainObj [Ref 1; Ref 2] 6) =
  Some (Return "<sequence view 6: [0, 1, 2, 'a', 'b', 'c'] >").
Proof.
  refine (repr_short example_repr views_SeqView example_heap
            (ChainObj [Ref 1; Ref 2] 6) 6
            [VInt 0; VInt 1; VInt 2; VStr "a"; VStr "b"; VStr "c"] _ _ _ _).
  - exact I.
  - reflexivity.
  - lia.
  - reflexivity.
Defined.

(** X16: on the module as it is, displaying a [Seq] of more than 10 items
    over an object of unchanged length raises [NameError]: [__repr__] takes
    the slice [self[:5]] first. *)
Theorem repr_long_Seq (repr_item : value -> string) (h : heap) (s : obj)
    (lo : Z) (sl : slice.t) (n : Z) :
  len h s = Return lo ->
  10 < n ->
  SeqMixin.__repr__ repr_item views_SeqView h (SeqObj s lo sl n) =
    Some (Raise (NameError "name 'SeqView' is not defined")).
Proof.
  intros Hlen Hn.
  unfold SeqMixin.__repr__; simpl len; cbv iota.
  assert (Hlong : (n <=? SeqMixin.REPR_ITEMS) = false)
    by (apply Z.leb_gt; unfold SeqMixin.REPR_ITEMS; lia).
  rewrite Hlong.
  rewrite (Seq_getitem_slice_unbound h s lo sl n None _ None Hlen)
    by discriminate.
  reflexivity.
Qed.

Lemma repr_long_Seq_witness :
  SeqMixin.__repr__ example_repr views_SeqView example_heap
    (SeqObj (ChainObj [Ref 0; Ref 1] 13) 13 (slice.mk 0 13 1) 13) =
  Some (Raise (NameError "name 'SeqView' is not defined")).
Proof.
  apply (repr_long_Seq _ example_heap (ChainObj [Ref 0; Ref 1] 13) 13
           (slice.mk 0 13 1) 13); [reflexivity | lia].
Defined.

(** The items of a view over a chain are the chain's items at the indices of
    the view's slice. *)
Lemma elements_Seq_over_chain (SeqView : option view_ctor) (h : heap)
    (parts : list obj) (n : Z) (start stop : option Z) (a b m : Z)
    (vs : list value) :
  0 <= n ->
  slice_indices start stop None n = Return (a, b, 1) ->
  0 <= a -> 0 <= b ->
  range_len a b 1 = m ->
  map (fun k => getitem SeqView h (ChainObj parts n) (SubInt k))
      (range_items a 1 m) = map (fun v => Return (RElem v)) vs ->
  getitem SeqView h (ChainObj parts n) (SubSlice start stop None) =
    Return (RView (SeqObj (ChainObj parts n) n (slice.mk a b 1) m)) /\
  unpack SeqView h (SeqObj (ChainObj parts n) n (slice.mk a b 1) m) =
    Some (Return vs).
Proof.
  intros Hn Hidx Ha Hb Hm Hvs.
  split.
  - rewrite getitem_Chain; unfold SeqChain.__getitem__.
    rewrite (Seq_init_nonneg_bounds h (ChainObj parts n) start stop None n a b 1);
      try assumption; try reflexivity.
    rewrite Hm; reflexivity.
  - pose proof (range_len_nonneg a b 1) as Hm0; rewrite Hm in Hm0.
    apply (unpack_elements SeqView h _ m); try reflexivity; try assumption.
    rewrite <- Hvs; unfold elements; simpl len; cbv iota.
    unfold range_items; rewrite !map_map.
    apply map_ext_in; intros j Hj; apply in_seq in Hj.
    subst m.
    destruct (Seq_item_nonneg_bounds SeqView h (ChainObj parts n) start stop None
                n a b 1 (0 + Z.of_nat j * 1) Hn Hidx Ha Hb eq_refl) as [_ Hget];
      [lia |].
    rewrite Hget; do 2 f_equal; lia.
Qed.

(** X17: a chain of more than 10 items whose first five and last four items
    can be read is displayed as [<sequence view n: [...] >] with its length,
    its first five items, [...], and its last four items. *)
Theorem repr_long_chain (repr_item : value -> string)
    (SeqView : option view_ctor) (h : heap) (parts : list obj) (n : Z)
    (vs ws : list value) :
  10 < n ->
  map (fun k => getitem SeqView h (ChainObj parts n) (SubInt k))
      (range_items 0 1 5) = map (fun v => Return (RElem v)) vs ->
  map (fun k => getitem SeqView h (ChainObj parts n) (SubInt k))
      (range_items (n - 4) 1 4) = map (fun v => Return (RElem v)) ws ->
  SeqMixin.__repr__ repr_item SeqView h (ChainObj parts n) =
    Some (Return
            (SeqMixin.template n
               (SeqMixin.repr_list repr_item
                  (map SeqMixin.Item vs ++ [SeqMixin.Dots]
                     ++ map SeqMixin.Item ws)%list))).
Proof.
  intros Hn Hvs Hws.
  assert (Hhead : slice_indices None (Some 5) None n = Return (0, 5, 1)).
  { unfold slice_indices; simpl; rewrite Z.min_l by lia; reflexivity. }
  assert (Htail : slice_indices (Some (-4)) None None n = Return (n - 4, n, 1)).
  { unfold slice_indices; cbv zeta.
    change (1 =? 0) with false; change (1 <? 0) with false.
    change (-4 <? 0) with true; cbv iota.
    do 3 f_equal; lia. }
  assert (Hlen_tail : range_len (n - 4) n 1 = 4).
  { unfold range_len.
    change (0 <? 1) with true; cbv iota.
    assert (H0 : (n - 4 <? n) = true) by (apply Z.ltb_lt; lia).
    rewrite H0.
    replace (n - (n - 4) - 1) with 3 by lia; reflexivity. }
  destruct (elements_Seq_over_chain SeqView h parts n None (Some 5) 0 5 5 vs)
    as [Hget_head Hun_head]; try assumption; try reflexivity; try lia.
  destruct (elements_Seq_over_chain SeqView h parts n (Some (-4)) None
              (n - 4) n 4 ws) as [Hget_tail Hun_tail];
    try assumption; try lia.
  unfold SeqMixin.__repr__; simpl len; cbv iota.
  assert (Hlong : (n <=? SeqMixin.REPR_ITEMS) = false)
    by (apply Z.leb_gt; unfold SeqMixin.REPR_ITEMS; lia).
  rewrite Hlong.
  change (fst SeqMixin.REPR_SPLIT) with 5.
  change (- snd SeqMixin.REPR_SPLIT) with (-4).
  rewrite Hget_head, Hun_head, Hget_tail, Hun_tail.
  reflexivity.
Qed.

Lemma repr_long_chain_witness :
  SeqMixin.__repr__ example_repr views_SeqView example_heap
    (ChainObj [Ref 0; Ref 1] 13) =
  Some (Return "<sequence view 13: [0, 1, 2, 3, 4, ..., 9, 0, 1, 2] >").
Proof.
  refine (repr_long_chain example_repr views_SeqView example_heap
            [Ref 0; Ref 1] 13
            [VInt 0; VInt 1; VInt 2; VInt 3; VInt 4]
            [VInt 9; VInt 0; VInt 1; VInt 2] _ _ _).
  - lia.
  - reflexivity.
  - reflexivity.
Defined.
